(** * libvirtio: the virtio block and network drivers

    A shallow embedding of [virtio-blk.c] and [virtio-net.c] (with the
    barrier primitives of [cpu.h] and the allocator wrappers of
    [helpers.c]).  Every driver function is a state-passing function over
    a [world]: the transport registers of the device, guest memory, the
    allocators, the file-scope statics of the net driver and a
    chronological log of every register, ring, descriptor and buffer
    access, of every barrier and of every notification.  Structures the C
    code reaches through pointers are passed in and returned; a pointer
    that may be NULL is an [option] or, for a plain address, 0.

    C integers are [Z] with the wrap-around of their width written out.
    The transport shim and the virtqueue engine of [virtio.c], which the
    drivers call, are modelled from the specification. *)

From Stdlib Require Import ZArith List Bool Lia.
Import ListNotations.
Open Scope Z_scope.

(** ** Machine integers *)

Definition u8  (x : Z) : Z := x mod 2^8.
Definition u16 (x : Z) : Z := x mod 2^16.
Definition u32 (x : Z) : Z := x mod 2^32.
Definition u64 (x : Z) : Z := x mod 2^64.

(** [int]: 32-bit two's complement. *)
Definition s32 (x : Z) : Z :=
  let y := u32 x in if y <? 2^31 then y else y - 2^32.

(** C truth value of an integer expression. *)
Definition nonzero (x : Z) : bool := negb (x =? 0).

(** Byte swaps, used by the [cpu_to_le*] family on a big-endian host. *)
Definition byte_of (x : Z) (i : Z) : Z := Z.land (Z.shiftr x (8 * i)) 255.

Definition bswap16 (x : Z) : Z :=
  Z.lor (Z.shiftl (byte_of x 0) 8) (byte_of x 1).

Definition bswap32 (x : Z) : Z :=
  Z.lor (Z.shiftl (byte_of x 0) 24)
 (Z.lor (Z.shiftl (byte_of x 1) 16)
 (Z.lor (Z.shiftl (byte_of x 2) 8) (byte_of x 3))).

Definition bswap64 (x : Z) : Z :=
  Z.lor (Z.shiftl (bswap32 (u32 x)) 32) (bswap32 (Z.shiftr x 32)).

(** Point update of a table indexed by integers (arrays, rings, memory). *)
Definition upd {A : Type} (f : Z -> A) (k : Z) (v : A) : Z -> A :=
  fun x => if x =? k then v else f x.

(** ** Constants of the virtio headers

    [virtio.h], [virtio-blk.h] and [virtio-net.h] are not part of the
    sources at hand; the values are those the specification gives
    (status bits, feature bits, request types, configuration offsets)
    and, for the ring flags, those of the split-ring layout. *)

Definition VIRTIO_STAT_ACKNOWLEDGE : Z := 1.
Definition VIRTIO_STAT_DRIVER      : Z := 2.
Definition VIRTIO_STAT_DRIVER_OK   : Z := 4.
Definition VIRTIO_STAT_FEATURES_OK : Z := 8.
Definition VIRTIO_STAT_FAILED      : Z := 128.

Definition VIRTIO_F_VERSION_1    : Z := 2^32.
Definition VIRTIO_BLK_F_BLK_SIZE : Z := 2^6.
Definition VIRTIO_NET_F_MAC      : Z := 2^5.

Definition VRING_DESC_F_NEXT  : Z := 1.
Definition VRING_DESC_F_WRITE : Z := 2.
Definition VRING_AVAIL_F_NO_INTERRUPT : Z := 1.

Definition VIRTIO_BLK_T_IN    : Z := 0.
Definition VIRTIO_BLK_T_OUT   : Z := 1.
Definition VIRTIO_BLK_T_FLUSH : Z := 4.

Definition VQ_RX : Z := 0.
Definition VQ_TX : Z := 1.

Definition DEFAULT_SECTOR_SIZE : Z := 512.

(** [offset_of(struct virtio_blk_cfg, capacity)] and
    [offset_of(struct virtio_blk_cfg, blk_size)]. *)
Definition blk_cfg_capacity : Z := 0.
Definition blk_cfg_blk_size : Z := 20.

(** [sizeof(struct virtio_blk_req)]: type u32, ioprio u32, sector u64. *)
Definition sizeof_virtio_blk_req : Z := 16.
(** [sizeof(struct virtio_net_hdr)] and [sizeof(struct virtio_net_hdr_v1)]. *)
Definition sizeof_virtio_net_hdr    : Z := 10.
Definition sizeof_virtio_net_hdr_v1 : Z := 12.

(** ** Data model

    Records have primitive projections: a field of an updated record
    reduces to the field, without a match on the record. *)

Set Primitive Projections.

Record vring_desc := mk_desc
  { d_addr : Z; d_len : Z; d_flags : Z; d_next : Z }.

Record vring_used_elem := mk_used_elem { ue_id : Z; ue_len : Z }.

Record vring_avail := mk_avail
  { a_flags : Z; a_idx : Z; a_ring : Z -> Z }.

Record vring_used := mk_used
  { u_flags : Z; u_idx : Z; u_ring : Z -> vring_used_elem }.

(** [struct vqs]; the three rings are held by value. *)
Record vqs := mk_vqs
  { vq_size : Z;
    buf_mem : Z;
    vq_pa   : Z;
    desc    : Z -> vring_desc;
    avail   : vring_avail;
    used    : vring_used }.

Record virtio_device := mk_dev
  { features : Z;
    vq : Z -> vqs }.

Record virtio_blk_req := mk_blk_req
  { req_type : Z; req_ioprio : Z; req_sector : Z }.

Record virtio_blk_req_data := mk_blk_data
  { blkhdr : virtio_blk_req; blkhdr_pa : Z; status_pa : Z }.

Record net_driver_t := mk_driver
  { running : Z; mac_addr : Z -> Z }.

Record virtio_net := mk_vnet
  { driver : net_driver_t; vdev : virtio_device }.

Definition zero_desc : vring_desc := mk_desc 0 0 0 0.
Definition zero_vq : vqs :=
  mk_vqs 0 0 0 (fun _ => zero_desc) (mk_avail 0 0 (fun _ => 0))
         (mk_used 0 0 (fun _ => mk_used_elem 0 0)).

(** Field updates. *)
Definition set_desc (q : vqs) (i : Z) (d : vring_desc) : vqs :=
  mk_vqs (vq_size q) (buf_mem q) (vq_pa q) (upd (desc q) i d) (avail q) (used q).
Definition set_avail (q : vqs) (a : vring_avail) : vqs :=
  mk_vqs (vq_size q) (buf_mem q) (vq_pa q) (desc q) a (used q).
Definition set_avail_ring (q : vqs) (i v : Z) : vqs :=
  set_avail q (mk_avail (a_flags (avail q)) (a_idx (avail q))
                        (upd (a_ring (avail q)) i v)).
Definition set_avail_idx (q : vqs) (v : Z) : vqs :=
  set_avail q (mk_avail (a_flags (avail q)) v (a_ring (avail q))).
Definition set_avail_flags (q : vqs) (v : Z) : vqs :=
  set_avail q (mk_avail v (a_idx (avail q)) (a_ring (avail q))).
Definition set_buf_mem (q : vqs) (p pa : Z) : vqs :=
  mk_vqs (vq_size q) p pa (desc q) (avail q) (used q).
Definition set_vq (d : virtio_device) (i : Z) (q : vqs) : virtio_device :=
  mk_dev (features d) (upd (vq d) i q).
Definition set_features (d : virtio_device) (f : Z) : virtio_device :=
  mk_dev f (vq d).

(** ** The transport and the platform

    The registers of one device as the transport shim shows them. *)
Record device := mk_device
  { status : Z;                 (* status register *)
    host_features : Z;          (* 64 feature bits offered by the host *)
    guest_features : Z;         (* feature bits written by the driver *)
    keeps_features_ok : bool;   (* does FEATURES_OK survive the handshake *)
    config : Z -> Z;            (* device-specific configuration, bytes *)
    queue_num_max : Z -> Z;     (* maximum size of each queue *)
    queue_sel : Z;
    queue_ready : Z -> bool;
    interrupt_status : Z }.

Inductive reg :=
| StatusReg | HostFeaturesReg | GuestFeaturesReg
| QueueSelReg | QueueNumMaxReg | QueueAddrReg | QueueReadyReg
| QueueNotifyReg | InterruptStatusReg | InterruptAckReg
| ConfigReg (off : Z).

(** Everything the driver does to the outside, in program order. *)
Inductive event :=
| RegRead (r : reg)
| RegWrite (r : reg) (v : Z)
| DescWrite (id : Z) (d : vring_desc)
| DescFree (id : Z)
| DescRead (id : Z)
| AvailRingWrite (slot v : Z)
| AvailIdxWrite (v : Z)
| AvailFlagsWrite (v : Z)
| AvailIdxRead
| UsedIdxRead
| UsedRingRead (slot : Z)
| HdrWrite (h : virtio_blk_req)
| BufCopy (dst src n : Z)
| Barrier.

Record world := mk_world
  { hw : device;
    mem : Z -> Z;                 (* the bytes of the data buffers, by
                                     address; rings, descriptors and
                                     request headers are kept in the
                                     queues and the request data *)
    cma_next : Z; cma_end : Z;    (* the contiguous-memory arena *)
    heap_free : Z;                (* bytes malloc can still hand out *)
    net_hdr_size : Z;             (* statics of virtio-net.c *)
    last_rx_idx : Z;
    last_tx_idx : Z;
    trace : list event }.

Definition set_hw (w : world) (h : device) : world :=
  mk_world h (mem w) (cma_next w) (cma_end w) (heap_free w)
           (net_hdr_size w) (last_rx_idx w) (last_tx_idx w) (trace w).
Definition set_mem (w : world) (m : Z -> Z) : world :=
  mk_world (hw w) m (cma_next w) (cma_end w) (heap_free w)
           (net_hdr_size w) (last_rx_idx w) (last_tx_idx w) (trace w).
Definition set_cma_next (w : world) (n : Z) : world :=
  mk_world (hw w) (mem w) n (cma_end w) (heap_free w)
           (net_hdr_size w) (last_rx_idx w) (last_tx_idx w) (trace w).
Definition set_heap_free (w : world) (n : Z) : world :=
  mk_world (hw w) (mem w) (cma_next w) (cma_end w) n
           (net_hdr_size w) (last_rx_idx w) (last_tx_idx w) (trace w).
Definition set_net_hdr_size (w : world) (n : Z) : world :=
  mk_world (hw w) (mem w) (cma_next w) (cma_end w) (heap_free w)
           n (last_rx_idx w) (last_tx_idx w) (trace w).
Definition set_last_rx_idx (w : world) (n : Z) : world :=
  mk_world (hw w) (mem w) (cma_next w) (cma_end w) (heap_free w)
           (net_hdr_size w) n (last_tx_idx w) (trace w).
Definition set_last_tx_idx (w : world) (n : Z) : world :=
  mk_world (hw w) (mem w) (cma_next w) (cma_end w) (heap_free w)
           (net_hdr_size w) (last_rx_idx w) n (trace w).
Definition set_trace (w : world) (t : list event) : world :=
  mk_world (hw w) (mem w) (cma_next w) (cma_end w) (heap_free w)
           (net_hdr_size w) (last_rx_idx w) (last_tx_idx w) t.

Definition set_status (h : device) (s : Z) : device :=
  mk_device s (host_features h) (guest_features h) (keeps_features_ok h)
            (config h) (queue_num_max h) (queue_sel h) (queue_ready h)
            (interrupt_status h).
Definition set_guest (h : device) (g : Z) : device :=
  mk_device (status h) (host_features h) g (keeps_features_ok h)
            (config h) (queue_num_max h) (queue_sel h) (queue_ready h)
            (interrupt_status h).
Definition set_queue_sel (h : device) (q : Z) : device :=
  mk_device (status h) (host_features h) (guest_features h)
            (keeps_features_ok h) (config h) (queue_num_max h) q
            (queue_ready h) (interrupt_status h).
Definition set_queue_ready (h : device) (q : Z) (b : bool) : device :=
  mk_device (status h) (host_features h) (guest_features h)
            (keeps_features_ok h) (config h) (queue_num_max h) (queue_sel h)
            (upd (queue_ready h) q b) (interrupt_status h).
Definition set_interrupt_status (h : device) (v : Z) : device :=
  mk_device (status h) (host_features h) (guest_features h)
            (keeps_features_ok h) (config h) (queue_num_max h) (queue_sel h)
            (queue_ready h) v.
(** The same device with another configuration region. *)
Definition set_config (h : device) (c : Z -> Z) : device :=
  mk_device (status h) (host_features h) (guest_features h)
            (keeps_features_ok h) c (queue_num_max h) (queue_sel h)
            (queue_ready h) (interrupt_status h).

(** ** The state monad of the driver *)

Definition M (A : Type) : Type := world -> A * world.

Definition ret {A} (a : A) : M A := fun w => (a, w).
Definition bind {A B} (m : M A) (k : A -> M B) : M B :=
  fun w => let (a, w') := m w in k a w'.

Declare Scope drv_scope.
Delimit Scope drv_scope with drv.
Notation "x <- m ;; k" := (bind m (fun x => k))
  (at level 61, m at next level, right associativity) : drv_scope.
Notation "m ;; k" := (bind m (fun _ => k))
  (at level 61, right associativity) : drv_scope.
Notation "' p <- m ;; k" := (bind m (fun p => k))
  (at level 61, p pattern, m at next level, right associativity) : drv_scope.
Open Scope drv_scope.

Definition get : M world := fun w => (w, w).
Definition modify (f : world -> world) : M unit := fun w => (tt, f w).
Definition log (e : event) : M unit :=
  modify (fun w => set_trace w (trace w ++ [e])).

(** The events a computation adds to the log of [w]. *)
Definition emitted {A} (m : M A) (w : world) : list event :=
  skipn (length (trace w)) (trace (snd (m w))).

Section Driver.

(** ** Platform parameters

    [byteorder.h] and [virtio-net.h] are not among the sources: the byte
    order of the host, the per-slot capacity [BUFFER_ENTRY_SIZE], the size
    of the net instance and the addresses of the two static, zeroed net
    headers of [virtionet_xmit] are parameters. *)
Variable host_big_endian : bool.
Variable BUFFER_ENTRY_SIZE : Z.
Variable sizeof_virtio_net : Z.
Variable nethdr_v1 nethdr_legacy : Z.

(** *** Byte-order adapter *)

Definition cpu_to_le16 (x : Z) : Z := if host_big_endian then bswap16 x else x.
Definition cpu_to_le32 (x : Z) : Z := if host_big_endian then bswap32 x else x.
Definition cpu_to_le64 (x : Z) : Z := if host_big_endian then bswap64 x else x.
Definition le16_to_cpu := cpu_to_le16.
Definition le32_to_cpu := cpu_to_le32.
Definition le64_to_cpu := cpu_to_le64.

(** [features & VIRTIO_F_VERSION_1] as a C condition. *)
Definition is_version_1 (feat : Z) : bool :=
  nonzero (Z.land feat VIRTIO_F_VERSION_1).

(** Modelled from the spec: the inline adapters of virtio-internal.h,
    which is not among the sources.  "When the device negotiated modern,
    these are guest-native-to/from-little-endian.  When legacy, identity." *)
Definition virtio_cpu_to_modern16 (dev : virtio_device) (val : Z) : Z :=
  if is_version_1 (features dev) then cpu_to_le16 (u16 val) else u16 val.
Definition virtio_cpu_to_modern32 (dev : virtio_device) (val : Z) : Z :=
  if is_version_1 (features dev) then cpu_to_le32 (u32 val) else u32 val.
Definition virtio_cpu_to_modern64 (dev : virtio_device) (val : Z) : Z :=
  if is_version_1 (features dev) then cpu_to_le64 (u64 val) else u64 val.
Definition virtio_modern16_to_cpu (dev : virtio_device) (val : Z) : Z :=
  if is_version_1 (features dev) then le16_to_cpu (u16 val) else u16 val.
Definition virtio_modern32_to_cpu (dev : virtio_device) (val : Z) : Z :=
  if is_version_1 (features dev) then le32_to_cpu (u32 val) else u32 val.
Definition virtio_modern64_to_cpu (dev : virtio_device) (val : Z) : Z :=
  if is_version_1 (features dev) then le64_to_cpu (u64 val) else u64 val.

(** *** cpu.h *)

(** [sync()]: "dsb sy"; [mb()] is defined as [sync()]. *)
Definition sync : M unit := log Barrier.
Definition mb : M unit := sync.

(** *** helpers.c *)

(** [cma_alloc] belongs to the platform: a bump arena, identity mapped,
    that answers NULL (0) once exhausted. *)
Definition cma_alloc (size : Z) : M (Z * Z) :=
  w <- get ;;
  if size <=? cma_end w - cma_next w
  then modify (fun w => set_cma_next w (cma_next w + size)) ;;
       ret (cma_next w, cma_next w)
  else ret (0, 0).

(** [malloc] of the C library: succeeds while [heap_free] lasts. *)
Definition malloc (size : Z) : M bool :=
  w <- get ;;
  if size <=? heap_free w
  then modify (fun w => set_heap_free w (heap_free w - size)) ;; ret true
  else ret false.

(** [SLOF_alloc_mem(size)] is [malloc(size)]; the result tells whether
    the pointer returned is non-NULL. *)
Definition SLOF_alloc_mem (size : Z) : M bool := malloc size.

(** Returns the virtual address and stores the physical one through [pa]. *)
Definition SLOF_alloc_mem_aligned (size alignment : Z) : M (Z * Z) :=
  cma_alloc size.

(** [free(addr)]: the block [addr] points to goes back to the heap, all
    [block] bytes it was allocated with.  [SLOF_free_mem(addr, size)] is
    [free(addr)] and ignores [size]; the pointer is given by the size of
    its block.  [cma_free] takes nothing back into the bump arena. *)
Definition free (block : Z) : M unit :=
  modify (fun w => set_heap_free w (heap_free w + block)).
Definition SLOF_free_mem (block size : Z) : M unit := free block.
Definition SLOF_free_mem_aligned (addr : Z) : M unit := ret tt.

(** The DMA mapping is the identity on this platform. *)
Definition SLOF_dma_map_in (virt size cacheable : Z) : Z := virt.
Definition SLOF_dma_map_out (phys virt size : Z) : M unit := ret tt.

(** [memcpy(dst, src, n)], [n] a [size_t]: every byte is read from the
    memory before the call. *)
Fixpoint copy_bytes (m : Z -> Z) (dst src : Z) (n : nat) (acc : Z -> Z) : Z -> Z :=
  match n with
  | O => acc
  | S k => copy_bytes m (dst + 1) (src + 1) k (upd acc dst (m src))
  end.

Definition memcpy (dst src n : Z) : M unit :=
  log (BufCopy dst src (u64 n)) ;;
  modify (fun w => set_mem w (copy_bytes (mem w) dst src (Z.to_nat (u64 n)) (mem w))).

(** The [n] bytes of memory at [a]. *)
Fixpoint read_bytes (m : Z -> Z) (a : Z) (n : nat) : list Z :=
  match n with
  | O => []
  | S k => m a :: read_bytes m (a + 1) k
  end.

(** *** Transport shim (virtio.c) *)

(** The device may refuse FEATURES_OK: it then reads back cleared. *)
Definition device_latch (keeps : bool) (s : Z) : Z :=
  if keeps then s else Z.ldiff s VIRTIO_STAT_FEATURES_OK.

(** Modelled from the spec: [virtio_reset_device] of virtio.c, which is not
    among the sources.  "reset: write zero status; poll status until zero."
    The device of this model reads zero at once, so the poll reads once. *)
Definition virtio_reset_device (dev : virtio_device) : M unit :=
  log (RegWrite StatusReg 0) ;;
  modify (fun w => set_hw w (set_status (hw w) 0)) ;;
  log (RegRead StatusReg).

(** Modelled from the spec: [virtio_set_status] of virtio.c.  "one-byte
    register access; set_status is an OR-into-register operation and the
    caller supplies the cumulative value". *)
Definition virtio_set_status (dev : virtio_device) (st : Z) : M unit :=
  log (RegWrite StatusReg (u8 st)) ;;
  modify (fun w =>
    set_hw w (set_status (hw w)
      (device_latch (keeps_features_ok (hw w))
         (Z.lor (status (hw w)) (u8 st))))).

(** Modelled from the spec: [virtio_get_status] of virtio.c; the value read
    is stored through the [int *] argument. *)
Definition virtio_get_status (dev : virtio_device) : M Z :=
  log (RegRead StatusReg) ;;
  w <- get ;;
  ret (status (hw w)).

(** Modelled from the spec: [virtio_get_host_features] of virtio.c; the two
    32-bit windows are read as one 64-bit value. *)
Definition virtio_get_host_features (dev : virtio_device) : M Z :=
  log (RegRead HostFeaturesReg) ;;
  w <- get ;;
  ret (u64 (host_features (hw w))).

(** Modelled from the spec: [virtio_set_guest_features] of virtio.c. *)
Definition virtio_set_guest_features (dev : virtio_device) (f : Z) : M unit :=
  log (RegWrite GuestFeaturesReg (u64 f)) ;;
  modify (fun w => set_hw w (set_guest (hw w) (u64 f))).

(** Modelled from the spec: [virtio_negotiate_guest_features] of virtio.c.
    "read 64-bit host features, compute guest = host /\ supported, write
    guest features, set FEATURES_OK, re-read status, fail if FEATURES_OK
    cleared."  The negotiated set is recorded in the handle; the result is
    0 on success and -1 on failure. *)
Definition virtio_negotiate_guest_features (dev : virtio_device) (supported : Z)
  : M (Z * virtio_device) :=
  host <- virtio_get_host_features dev ;;
  let guest := Z.land host (u64 supported) in
  virtio_set_guest_features dev guest ;;
  st <- virtio_get_status dev ;;
  virtio_set_status dev (Z.lor st VIRTIO_STAT_FEATURES_OK) ;;
  st' <- virtio_get_status dev ;;
  if nonzero (Z.land st' VIRTIO_STAT_FEATURES_OK)
  then ret (0, set_features dev guest)
  else ret (-1, dev).

(** Modelled from the spec: [virtio_get_qsize] of virtio.c.
    "queue_select(index); queue_get_size() -> u16". *)
Definition virtio_get_qsize (dev : virtio_device) (q : Z) : M Z :=
  log (RegWrite QueueSelReg q) ;;
  modify (fun w => set_hw w (set_queue_sel (hw w) q)) ;;
  log (RegRead QueueNumMaxReg) ;;
  w <- get ;;
  ret (u16 (queue_num_max (hw w) q)).

(** Bytes of one split ring of [q] entries: descriptor table (16-byte
    entries), available ring (2-byte entries), used ring (8-byte entries,
    4-byte aligned). *)
Definition virtio_vring_size (q : Z) : Z :=
  let front := 16 * q + 2 * (3 + q) in
  (front + 3) / 4 * 4 + 2 * 3 + 8 * q.

(** Modelled from the spec: [virtio_queue_init_vq] of virtio.c.
    "1. Select queue index; read its maximum size Q; fail if Q == 0.
     2. Allocate one aligned, physically-contiguous region sized for
        descriptor table + available ring + used ring with proper padding;
        zero it.
     3. Publish addresses via the transport; record local cursor = 0."
    The result tells whether the returned pointer [&dev->vq[id]] is
    non-NULL; the cursors of this driver are the statics of virtio-net.c. *)
Definition virtio_queue_init_vq (dev : virtio_device) (id : Z)
  : M (bool * virtio_device) :=
  q <- virtio_get_qsize dev id ;;
  if q =? 0 then ret (false, dev)
  else
    ' (va, pa) <- SLOF_alloc_mem_aligned (virtio_vring_size q) 4096 ;;
    if va =? 0 then ret (false, dev)
    else
      log (RegWrite QueueAddrReg pa) ;;
      ret (true, set_vq dev id
                   (mk_vqs q 0 0 (desc zero_vq) (avail zero_vq) (used zero_vq))).

(** Modelled from the spec: [virtio_queue_ready] of virtio.c. *)
Definition virtio_queue_ready (dev : virtio_device) (q : Z) : M unit :=
  log (RegWrite QueueSelReg q) ;;
  log (RegWrite QueueReadyReg 1) ;;
  modify (fun w => set_hw w (set_queue_ready (set_queue_sel (hw w) q) q true)).

(** Modelled from the spec: [virtio_queue_notify] of virtio.c.  "Notify: a
    write to a transport register causing the host to examine a queue." *)
Definition virtio_queue_notify (dev : virtio_device) (q : Z) : M unit :=
  log (RegWrite QueueNotifyReg q).

(** Modelled from the spec: [virtio_queue_term_vq] of virtio.c
    ("queue_term(index)"): the queue is withdrawn from the device. *)
Definition virtio_queue_term_vq (dev : virtio_device) (q : vqs) (id : Z) : M unit :=
  log (RegWrite QueueSelReg id) ;;
  log (RegWrite QueueReadyReg 0) ;;
  modify (fun w => set_hw w (set_queue_ready (set_queue_sel (hw w) id) id false)).

(** Little-endian value of [n] configuration bytes from [off]. *)
Fixpoint config_bytes (c : Z -> Z) (off : Z) (n : nat) : Z :=
  match n with
  | O => 0
  | S k => u8 (c off) + 256 * config_bytes c (off + 1) k
  end.

(** Modelled from the spec: [virtio_get_config] of virtio.c.
    "config_read(offset, size): read from the device-specific
    configuration region."  The result is a [uint64_t]. *)
Definition config_read (h : device) (offset size : Z) : Z :=
  config_bytes (config h) offset (Z.to_nat size).

Definition virtio_get_config (dev : virtio_device) (offset size : Z) : M Z :=
  log (RegRead (ConfigReg offset)) ;;
  w <- get ;;
  ret (config_read (hw w) offset size).

(** Modelled from the spec: [virtio_get_interrupt_status] and
    [virtio_interrupt_ack] of virtio.c ("interrupt_status/ack"). *)
Definition virtio_get_interrupt_status (dev : virtio_device) : M Z :=
  log (RegRead InterruptStatusReg) ;;
  w <- get ;;
  ret (u32 (interrupt_status (hw w))).

Definition virtio_interrupt_ack (dev : virtio_device) (v : Z) : M unit :=
  log (RegWrite InterruptAckReg v) ;;
  modify (fun w =>
    set_hw w (set_interrupt_status (hw w) (Z.ldiff (interrupt_status (hw w)) v))).

(** *** Virtqueue engine (virtio.c) *)

(** Modelled from the spec: [virtio_fill_desc] of virtio.c.
    "fill_desc(id, addr, len, flags, next) writes one descriptor entry
    through the byte-order adapter."  Entry fields are u64, u32, u16, u16;
    the adapter is chosen by the [features] argument. *)
Definition desc_entry (feat addr len flags next : Z) : vring_desc :=
  if is_version_1 feat
  then mk_desc (cpu_to_le64 (u64 addr)) (cpu_to_le32 (u32 len))
               (cpu_to_le16 (u16 flags)) (cpu_to_le16 (u16 next))
  else mk_desc (u64 addr) (u32 len) (u16 flags) (u16 next).

Definition virtio_fill_desc (q : vqs) (id feat addr len flags next : Z) : M vqs :=
  let d := desc_entry feat addr len flags next in
  log (DescWrite id d) ;;
  ret (set_desc q id d).

(** Modelled from the spec: [virtio_free_desc] of virtio.c.  "free_desc(id)
    marks a descriptor slot reusable (implementation-defined sentinel)".
    With the identity DMA mapping of helpers.c nothing is unmapped and the
    table entry stays as it is. *)
Definition virtio_free_desc (q : vqs) (id feat : Z) : M vqs :=
  log (DescFree id) ;;
  ret q.

(** Modelled from the spec: [virtio_desc_addr] of virtio.c.  "its addr
    field gives the guest buffer". *)
Definition virtio_desc_addr (dev : virtio_device) (queue id : Z) : M Z :=
  log (DescRead id) ;;
  ret (virtio_modern64_to_cpu dev (d_addr (desc (vq dev queue) id))).

(** Loads and stores of ring fields, as the lvalues of the C code. *)
Definition avail_idx_load (q : vqs) : M Z :=
  log AvailIdxRead ;; ret (a_idx (avail q)).
Definition avail_ring_store (q : vqs) (slot v : Z) : M vqs :=
  log (AvailRingWrite slot v) ;; ret (set_avail_ring q slot v).
Definition avail_idx_store (q : vqs) (v : Z) : M vqs :=
  log (AvailIdxWrite v) ;; ret (set_avail_idx q v).
Definition avail_flags_store (q : vqs) (v : Z) : M vqs :=
  log (AvailFlagsWrite v) ;; ret (set_avail_flags q v).
Definition used_idx_load (q : vqs) : M Z :=
  log UsedIdxRead ;; ret (u_idx (used q)).
Definition used_ring_load (q : vqs) (slot : Z) : M vring_used_elem :=
  log (UsedRingRead slot) ;; ret (u_ring (used q) slot).

(** ** virtio-blk.c *)

Definition BLK_DRIVER_FEATURE_SUPPORT : Z := VIRTIO_F_VERSION_1.

(** The [dev_error] exit of [virtioblk_init]. *)
Definition virtioblk_init_dev_error (dev : virtio_device) (st : Z)
  : M (Z * virtio_device) :=
  virtio_set_status dev (Z.lor st VIRTIO_STAT_FAILED) ;;
  ret (0, dev).

Definition virtioblk_init (dev : virtio_device) : M (Z * virtio_device) :=
  let blk_size := DEFAULT_SECTOR_SIZE in
  let st := VIRTIO_STAT_ACKNOWLEDGE in
  virtio_reset_device dev ;;
  virtio_set_status dev st ;;
  let st := Z.lor st VIRTIO_STAT_DRIVER in
  virtio_set_status dev st ;;
  ' (ok, st, dev) <-
    (if is_version_1 (features dev)
     then ' (r, dev') <- virtio_negotiate_guest_features dev BLK_DRIVER_FEATURE_SUPPORT ;;
          if nonzero r then ret (false, st, dev')
          else st' <- virtio_get_status dev' ;; ret (true, st', dev')
     else virtio_set_guest_features dev VIRTIO_BLK_F_BLK_SIZE ;;
          ret (true, st, dev)) ;;
  if negb ok then virtioblk_init_dev_error dev st
  else
    ' (vq_ok, dev) <- virtio_queue_init_vq dev 0 ;;
    if negb vq_ok then virtioblk_init_dev_error dev st
    else
      let st := Z.lor st VIRTIO_STAT_DRIVER_OK in
      virtio_set_status dev st ;;
      feat <- virtio_get_host_features dev ;;
      if nonzero (Z.land feat VIRTIO_BLK_F_BLK_SIZE)
      then v <- virtio_get_config dev blk_cfg_blk_size 4 ;;
           ret (s32 v, dev)
      else ret (blk_size, dev).

Definition virtioblk_shutdown (dev : virtio_device) : M unit :=
  virtio_set_status dev VIRTIO_STAT_FAILED ;;
  virtio_reset_device dev.

(** [is_modern] is a [bool], [type], [ioprio] and [sector] are
    [uint32_t]; the [ioprio] stores are commented out in the source. *)
Definition fill_blk_hdr (hdr : virtio_blk_req) (is_modern : bool)
    (type ioprio sector : Z) : virtio_blk_req :=
  let type := u32 type in
  let sector := u32 sector in
  if is_modern
  then mk_blk_req (cpu_to_le32 type) (req_ioprio hdr) (cpu_to_le64 sector)
  else mk_blk_req type (req_ioprio hdr) sector.

(** [blocknum] is a [uint64_t], [cnt] a [long], [type] an [unsigned int],
    [blk_size] an [int]; the result is the [int] returned, the device
    handle and the request data whose header was filled. *)
Definition virtioblk_transfer (dev : virtio_device) (data : virtio_blk_req_data)
    (buf blocknum cnt type : Z)
  : M (Z * virtio_device * virtio_blk_req_data) :=
  let q := vq dev 0 in
  capacity <- virtio_get_config dev blk_cfg_capacity 8 ;;
  if u64 (blocknum + cnt - 1) >? capacity then ret (0, dev, data)
  else
    v <- virtio_get_config dev blk_cfg_blk_size 4 ;;
    let blk_size := s32 v in
    if nonzero (Z.rem blk_size DEFAULT_SECTOR_SIZE) then ret (0, dev, data)
    else
      i <- avail_idx_load q ;;
      let avail_idx := u16 (virtio_modern16_to_cpu dev i mod vq_size q) in
      let hdr := fill_blk_hdr (blkhdr data) (nonzero (features dev)) type 1
                   (u64 (blocknum * blk_size) / DEFAULT_SECTOR_SIZE) in
      log (HdrWrite hdr) ;;
      let id := (avail_idx * 3) mod vq_size q in
      q <- virtio_fill_desc q id (features dev) (blkhdr_pa data)
             sizeof_virtio_blk_req VRING_DESC_F_NEXT (id + 1) ;;
      q <- virtio_fill_desc q (id + 1) (features dev) buf (cnt * blk_size)
             (Z.lor VRING_DESC_F_NEXT
                (if nonzero (Z.land type 1) then 0 else VRING_DESC_F_WRITE))
             (id + 2) ;;
      q <- virtio_fill_desc q (id + 2) (features dev) (status_pa data) 1
             VRING_DESC_F_WRITE 0 ;;
      q <- avail_ring_store q (avail_idx mod vq_size q)
             (virtio_cpu_to_modern16 dev id) ;;
      mb ;;
      q <- avail_idx_store q (virtio_cpu_to_modern16 dev (avail_idx + 1)) ;;
      virtio_queue_notify dev 0 ;;
      ret (0, set_vq dev 0 q, mk_blk_data hdr (blkhdr_pa data) (status_pa data)).

(** ** virtio-net.c *)

Definition NET_DRIVER_FEATURE_SUPPORT : Z :=
  Z.lor VIRTIO_NET_F_MAC VIRTIO_F_VERSION_1.

Definition set_running (n : virtio_net) (r : Z) : virtio_net :=
  mk_vnet (mk_driver r (mac_addr (driver n))) (vdev n).
Definition set_mac (n : virtio_net) (i v : Z) : virtio_net :=
  mk_vnet (mk_driver (running (driver n)) (upd (mac_addr (driver n)) i v)) (vdev n).
Definition set_vdev (n : virtio_net) (d : virtio_device) : virtio_net :=
  mk_vnet (driver n) d.

(** [dev] is a pointer: [None] is NULL.  The [memcpy] of the device
    structure gives the instance its own copy of the handle. *)
Definition virtionet_init_mmio (vnet : virtio_net) (dev : option virtio_device)
  : M (Z * virtio_net) :=
  match dev with
  | None => ret (-1, vnet)
  | Some d =>
      let vnet := set_vdev vnet d in
      virtio_reset_device (vdev vnet) ;;
      virtio_set_status (vdev vnet) VIRTIO_STAT_ACKNOWLEDGE ;;
      ret (0, vnet)
  end.

Definition virtionet_init_pci := virtionet_init_mmio.

(** The [dev_error] exit of [virtionet_init]. *)
Definition virtionet_init_dev_error (vnet : virtio_net) (st : Z)
  : M (Z * virtio_net) :=
  virtio_set_status (vdev vnet) (Z.lor st VIRTIO_STAT_FAILED) ;;
  ret (-1, vnet).

(** The loop that prepares the receive queue: iterations [i], [i+1], ...,
    [n] of them. *)
Fixpoint rx_prepost (n : nat) (i : Z) (d : virtio_device) (hdr_size : Z)
    (q : vqs) : M vqs :=
  match n with
  | O => ret q
  | S k =>
      let addr := u64 (buf_mem q + u32 (i * u32 (BUFFER_ENTRY_SIZE + hdr_size))) in
      let id := u32 (i * 2) in
      q <- virtio_fill_desc q id (features d) addr hdr_size
             (Z.lor VRING_DESC_F_NEXT VRING_DESC_F_WRITE) (id + 1) ;;
      q <- virtio_fill_desc q (id + 1) (features d) (addr + hdr_size)
             BUFFER_ENTRY_SIZE VRING_DESC_F_WRITE 0 ;;
      q <- avail_ring_store q i (virtio_cpu_to_modern16 d id) ;;
      rx_prepost k (i + 1) d hdr_size q
  end.

(** The loop that reads the MAC address from the configuration. *)
Fixpoint read_mac (n : nat) (i : Z) (vnet : virtio_net) : M virtio_net :=
  match n with
  | O => ret vnet
  | S k =>
      v <- virtio_get_config (vdev vnet) i 1 ;;
      read_mac k (i + 1) (set_mac vnet i (u8 v))
  end.

Definition virtionet_init (vnet : virtio_net) : M (Z * virtio_net) :=
  let st := Z.lor VIRTIO_STAT_ACKNOWLEDGE VIRTIO_STAT_DRIVER in
  if nonzero (running (driver vnet)) then ret (0, vnet)
  else
    virtio_set_status (vdev vnet) st ;;
    ' (ok, st, vnet) <-
      (if is_version_1 (features (vdev vnet))
       then ' (r, d) <- virtio_negotiate_guest_features (vdev vnet)
                          NET_DRIVER_FEATURE_SUPPORT ;;
            let vnet := set_vdev vnet d in
            if nonzero r then ret (false, st, vnet)
            else
              modify (fun w => set_net_hdr_size w sizeof_virtio_net_hdr_v1) ;;
              st' <- virtio_get_status (vdev vnet) ;;
              ret (true, st', vnet)
       else modify (fun w => set_net_hdr_size w sizeof_virtio_net_hdr) ;;
            virtio_set_guest_features (vdev vnet) 0 ;;
            ret (true, st, vnet)) ;;
    if negb ok then virtionet_init_dev_error vnet st
    else
      ' (rx_ok, d) <- virtio_queue_init_vq (vdev vnet) VQ_RX ;;
      ' (tx_ok, d) <- virtio_queue_init_vq d VQ_TX ;;
      let vnet := set_vdev vnet d in
      if negb rx_ok || negb tx_ok
      then virtio_set_status (vdev vnet)
             (Z.lor (Z.lor VIRTIO_STAT_ACKNOWLEDGE VIRTIO_STAT_DRIVER)
                    VIRTIO_STAT_FAILED) ;;
           ret (-1, vnet)
      else
        queue_size <- virtio_get_qsize (vdev vnet) VQ_RX ;;
        w <- get ;;
        let hdr_size := net_hdr_size w in
        ' (p, pa) <- SLOF_alloc_mem_aligned
                       (u32 (u32 (BUFFER_ENTRY_SIZE + hdr_size) * queue_size) / 2) 8 ;;
        let vnet := set_vdev vnet (set_vq (vdev vnet) VQ_RX
                      (set_buf_mem (vq (vdev vnet) VQ_RX) p pa)) in
        if p =? 0 then virtionet_init_dev_error vnet st
        else
          ' (p, pa) <- SLOF_alloc_mem_aligned
                         (BUFFER_ENTRY_SIZE * queue_size / 2) 8 ;;
          let vnet := set_vdev vnet (set_vq (vdev vnet) VQ_TX
                        (set_buf_mem (vq (vdev vnet) VQ_TX) p pa)) in
          if p =? 0 then virtionet_init_dev_error vnet st
          else
            let d := vdev vnet in
            vq_rx <- rx_prepost (Z.to_nat (queue_size / 2)) 0 d hdr_size
                       (vq d VQ_RX) ;;
            sync ;;
            vq_rx <- avail_flags_store vq_rx (virtio_cpu_to_modern16 d 0) ;;
            vq_rx <- avail_idx_store vq_rx
                       (virtio_cpu_to_modern16 d (queue_size / 2)) ;;
            i <- used_idx_load vq_rx ;;
            modify (fun w => set_last_rx_idx w (virtio_modern16_to_cpu d i)) ;;
            vq_tx <- avail_flags_store (vq d VQ_TX)
                       (virtio_cpu_to_modern16 d VRING_AVAIL_F_NO_INTERRUPT) ;;
            vq_tx <- avail_idx_store vq_tx 0 ;;
            let d := set_vq (set_vq d VQ_RX vq_rx) VQ_TX vq_tx in
            let vnet := set_vdev vnet d in
            let st := Z.lor st (Z.lor VIRTIO_STAT_DRIVER_OK VIRTIO_STAT_FEATURES_OK) in
            virtio_set_status d st ;;
            virtio_queue_ready d VQ_RX ;;
            virtio_queue_notify d VQ_RX ;;
            let vnet := set_running vnet 1 in
            vnet <- read_mac 6 0 vnet ;;
            ret (0, vnet).

Definition virtionet_term (vnet : virtio_net) : M (Z * virtio_net) :=
  let d := vdev vnet in
  if running (driver vnet) =? 0 then ret (0, vnet)
  else
    virtio_set_status d VIRTIO_STAT_FAILED ;;
    virtio_reset_device d ;;
    let vnet := set_running vnet 0 in
    SLOF_free_mem_aligned (buf_mem (vq d VQ_RX)) ;;
    let vq_rx := set_buf_mem (vq d VQ_RX) 0 (vq_pa (vq d VQ_RX)) in
    let vq_tx := set_buf_mem (vq d VQ_TX) 0 (vq_pa (vq d VQ_TX)) in
    let d := set_vq (set_vq d VQ_RX vq_rx) VQ_TX vq_tx in
    virtio_queue_term_vq d vq_rx VQ_RX ;;
    virtio_queue_term_vq d vq_tx VQ_TX ;;
    ret (0, set_vdev vnet d).

(** [len] is an [int]; [memcpy] takes it as a [size_t]. *)
Definition virtionet_xmit (vnet : virtio_net) (buf len : Z)
  : M (Z * virtio_net) :=
  let d := vdev vnet in
  let vq_tx := vq d VQ_TX in
  if len >? BUFFER_ENTRY_SIZE then ret (0, vnet)
  else
    let nethdr := if is_version_1 (features d) then nethdr_v1 else nethdr_legacy in
    i <- avail_idx_load vq_tx ;;
    let idx := virtio_modern16_to_cpu d i in
    let id := (idx * 2) mod vq_size vq_tx in
    let buf_index := (idx * 2) mod (vq_size vq_tx / 2) in
    let buf_addr := buf_mem vq_tx + (buf_index / 2) * BUFFER_ENTRY_SIZE in
    memcpy buf_addr buf len ;;
    vq_tx <- virtio_free_desc vq_tx id (features d) ;;
    vq_tx <- virtio_free_desc vq_tx (id + 1) (features d) ;;
    w <- get ;;
    vq_tx <- virtio_fill_desc vq_tx id (features d) nethdr (net_hdr_size w)
               VRING_DESC_F_NEXT (id + 1) ;;
    vq_tx <- virtio_fill_desc vq_tx (id + 1) (features d) buf_addr len 0 0 ;;
    vq_tx <- avail_ring_store vq_tx (idx mod vq_size vq_tx)
               (virtio_cpu_to_modern16 d id) ;;
    sync ;;
    vq_tx <- avail_idx_store vq_tx (virtio_cpu_to_modern16 d (idx + 1)) ;;
    sync ;;
    u <- used_idx_load vq_tx ;;
    modify (fun w => set_last_tx_idx w u) ;;
    virtio_queue_notify d VQ_TX ;;
    ret (len, set_vdev vnet (set_vq d VQ_TX vq_tx)).

Definition virtionet_receive_check (vnet : virtio_net) : M Z :=
  let d := vdev vnet in
  let vq_rx := vq d VQ_RX in
  u <- used_idx_load vq_rx ;;
  let idx := virtio_modern16_to_cpu d u in
  w <- get ;;
  if last_rx_idx w =? idx then ret 0
  else
    e <- used_ring_load vq_rx (last_rx_idx w mod vq_size vq_rx) ;;
    ret (virtio_modern32_to_cpu d (ue_len e)).

(** [id], [idx] and [len] are [uint32_t], [avail_idx] a [uint16_t] and
    [maxlen] an [int]; the [memcpy] length is the [uint32_t] [len]. *)
Definition virtionet_receive (vnet : virtio_net) (buf maxlen : Z)
  : M (Z * virtio_net) :=
  let d := vdev vnet in
  let vq_rx := vq d VQ_RX in
  u <- used_idx_load vq_rx ;;
  let idx := virtio_modern16_to_cpu d u in
  w <- get ;;
  if last_rx_idx w =? idx then ret (0, vnet)
  else
    e <- used_ring_load vq_rx (last_rx_idx w mod vq_size vq_rx) ;;
    let id := u32 (virtio_modern32_to_cpu d (ue_id e) + 1) mod vq_size vq_rx in
    e <- used_ring_load vq_rx (last_rx_idx w mod vq_size vq_rx) ;;
    let len := u32 (virtio_modern32_to_cpu d (ue_len e) - net_hdr_size w) in
    let len := if len >? u32 maxlen then u32 maxlen else len in
    dev_buf_addr <- virtio_desc_addr d VQ_RX id ;;
    memcpy buf dev_buf_addr len ;;
    modify (fun w => set_last_rx_idx w (u16 (last_rx_idx w + 1))) ;;
    i <- avail_idx_load vq_rx ;;
    let avail_idx := virtio_modern16_to_cpu d i in
    vq_rx <- avail_ring_store vq_rx (avail_idx mod vq_size vq_rx)
               (virtio_cpu_to_modern16 d (u32 (id - 1))) ;;
    sync ;;
    vq_rx <- avail_idx_store vq_rx (virtio_cpu_to_modern16 d (avail_idx + 1)) ;;
    virtio_queue_notify d VQ_RX ;;
    ret (s32 len, set_vdev vnet (set_vq d VQ_RX vq_rx)).

(** A freshly allocated instance; only [running] is initialised by
    [virtionet_open]. *)
Definition fresh_vnet : virtio_net :=
  mk_vnet (mk_driver 0 (fun _ => 0)) (mk_dev 0 (fun _ => zero_vq)).

(** The library is built with [VIRTIO_USE_MMIO] only.  The result is the
    instance pointer: [None] is NULL.  The block freed at [FAIL] is the
    instance, of [sizeof_virtio_net] bytes. *)
Definition virtionet_open (dev : option virtio_device) : M (option virtio_net) :=
  ok <- SLOF_alloc_mem sizeof_virtio_net ;;
  if negb ok then ret None
  else
    let vnet := set_running fresh_vnet 0 in
    ' (r, vnet) <- virtionet_init_mmio vnet dev ;;
    if nonzero r
    then SLOF_free_mem sizeof_virtio_net sizeof_virtio_net ;; ret None
    else
      ' (r, vnet) <- virtionet_init vnet ;;
      if nonzero r
      then SLOF_free_mem sizeof_virtio_net sizeof_virtio_net ;; ret None
      else ret (Some vnet).

Definition virtionet_close (vnet : option virtio_net) : M unit :=
  match vnet with
  | Some n =>
      virtionet_term n ;;
      SLOF_free_mem sizeof_virtio_net sizeof_virtio_net
  | None => ret tt
  end.

(** [vnet] and [buf] are pointers: [None] and address 0 are NULL.  The
    instance is returned as the call leaves it. *)
Definition virtionet_read (vnet : option virtio_net) (buf len : Z)
  : M (Z * option virtio_net) :=
  match vnet with
  | Some n =>
      if nonzero buf
      then ' (r, n') <- virtionet_receive n buf len ;; ret (r, Some n')
      else ret (-1, vnet)
  | None => ret (-1, vnet)
  end.

Definition virtionet_write (vnet : option virtio_net) (buf len : Z)
  : M (Z * option virtio_net) :=
  match vnet with
  | Some n =>
      if nonzero buf
      then ' (r, n') <- virtionet_xmit n buf len ;; ret (r, Some n')
      else ret (-1, vnet)
  | None => ret (-1, vnet)
  end.

Definition virtionet_handle_interrupt (vnet : virtio_net) : M unit :=
  int_status <- virtio_get_interrupt_status (vdev vnet) ;;
  virtio_interrupt_ack (vdev vnet) int_status.

(** ** Observations on a run *)

(** The values written to the status register, in order. *)
Fixpoint status_writes (t : list event) : list Z :=
  match t with
  | [] => []
  | RegWrite StatusReg v :: t' => v :: status_writes t'
  | _ :: t' => status_writes t'
  end.

(** Writes to transport registers. *)
Definition is_reg_write (e : event) : bool :=
  match e with RegWrite _ _ => true | _ => false end.
Definition reg_writes (t : list event) : list event := filter is_reg_write t.

Definition is_barrier (e : event) : bool :=
  match e with Barrier => true | _ => false end.

Definition is_avail_idx_write (e : event) : bool :=
  match e with AvailIdxWrite _ => true | _ => false end.
Definition is_ring_write (e : event) : bool :=
  match e with DescWrite _ _ | AvailRingWrite _ _ => true | _ => false end.
Definition is_notify (e : event) : bool :=
  match e with RegWrite QueueNotifyReg _ => true | _ => false end.

(** The events before, and after, the first one that satisfies [p]. *)
Fixpoint prefix_until (p : event -> bool) (t : list event) : list event :=
  match t with
  | [] => []
  | e :: t' => if p e then [] else e :: prefix_until p t'
  end.
Fixpoint suffix_after (p : event -> bool) (t : list event) : list event :=
  match t with
  | [] => []
  | e :: t' => if p e then t' else suffix_after p t'
  end.

(** The two orderings a submission owes the device: a barrier after the
    last descriptor or available-ring write and before the store to
    [avail.idx]; a barrier after that store and before the notification. *)
Definition barrier_before_idx (t : list event) : bool :=
  existsb is_barrier
    (prefix_until is_ring_write (rev (prefix_until is_avail_idx_write t))).
Definition barrier_before_notify (t : list event) : bool :=
  existsb is_barrier
    (prefix_until is_notify (suffix_after is_avail_idx_write t)).

(** What the block configuration holds. *)
Definition blk_capacity (w : world) : Z :=
  config_read (hw w) blk_cfg_capacity 8.
Definition blk_blk_size (w : world) : Z :=
  s32 (config_read (hw w) blk_cfg_blk_size 4).

(** The two checks at the head of [virtioblk_transfer]. *)
Definition blk_in_capacity (w : world) (blocknum cnt : Z) : bool :=
  negb (u64 (blocknum + cnt - 1) >? blk_capacity w).
Definition blk_size_aligned (w : world) : bool :=
  negb (nonzero (Z.rem (blk_blk_size w) DEFAULT_SECTOR_SIZE)).
Definition blk_accepts (w : world) (blocknum cnt : Z) : bool :=
  blk_in_capacity w blocknum cnt && blk_size_aligned w.

(** The slot and the head of the chain [virtioblk_transfer] computes. *)
Definition blk_avail_idx (dev : virtio_device) : Z :=
  u16 (virtio_modern16_to_cpu dev (a_idx (avail (vq dev 0))) mod vq_size (vq dev 0)).
Definition blk_head (dev : virtio_device) : Z :=
  (blk_avail_idx dev * 3) mod vq_size (vq dev 0).

(** The same for [virtionet_xmit]. *)
Definition tx_idx (vnet : virtio_net) : Z :=
  virtio_modern16_to_cpu (vdev vnet) (a_idx (avail (vq (vdev vnet) VQ_TX))).
Definition tx_head (vnet : virtio_net) : Z :=
  (tx_idx vnet * 2) mod vq_size (vq (vdev vnet) VQ_TX).

(** The pending used entry [virtionet_receive] looks at, and the
    descriptor index it derives from it. *)
Definition rx_pending (vnet : virtio_net) (w : world) : bool :=
  negb (last_rx_idx w =?
        virtio_modern16_to_cpu (vdev vnet) (u_idx (used (vq (vdev vnet) VQ_RX)))).
Definition rx_id_raw (vnet : virtio_net) (w : world) : Z :=
  let q := vq (vdev vnet) VQ_RX in
  virtio_modern32_to_cpu (vdev vnet)
    (ue_id (u_ring (used q) (last_rx_idx w mod vq_size q))).
Definition rx_payload_desc (vnet : virtio_net) (w : world) : Z :=
  u32 (rx_id_raw vnet w + 1) mod vq_size (vq (vdev vnet) VQ_RX).
Definition rx_len (vnet : virtio_net) (w : world) (maxlen : Z) : Z :=
  let q := vq (vdev vnet) VQ_RX in
  let len := u32 (virtio_modern32_to_cpu (vdev vnet)
                    (ue_len (u_ring (used q) (last_rx_idx w mod vq_size q)))
                  - net_hdr_size w) in
  if len >? u32 maxlen then u32 maxlen else len.

(** ** Concrete devices *)

(** A block configuration region with the given capacity and block size. *)
Definition ex_blk_config (capacity blk_size : Z) : Z -> Z :=
  fun off =>
    if (0 <=? off) && (off <? 8) then byte_of capacity off
    else if (20 <=? off) && (off <? 24) then byte_of blk_size (off - 20)
    else 0.

(** A device that offers [hf], with configuration [cfg] and queues of at
    most [qmax] entries, and the world around it: zeroed memory, an arena
    of 1 MiB, nothing logged. *)
Definition ex_device (hf : Z) (cfg : Z -> Z) (qmax : Z) : device :=
  mk_device 0 hf 0 true cfg (fun _ => qmax) 0 (fun _ => false) 0.
Definition ex_world (h : device) : world :=
  mk_world h (fun _ => 0) 4096 (2^20) 4096 0 0 0 [].

(** A queue of [size] entries whose [avail.idx] is [idx], and a handle
    with features [feat] whose queues are all like it. *)
Definition ex_vq (size idx : Z) : vqs :=
  mk_vqs size 0 0 (fun _ => zero_desc) (mk_avail 0 idx (fun _ => 0))
         (mk_used 0 0 (fun _ => mk_used_elem 0 0)).
Definition ex_dev (feat size idx : Z) : virtio_device :=
  mk_dev feat (fun _ => ex_vq size idx).
Definition ex_data : virtio_blk_req_data :=
  mk_blk_data (mk_blk_req 0 0 0) 4096 4112.

(** A legacy block device of 2048 blocks of 512 bytes with a queue of 8
    entries, and handles on it whose [avail.idx] is 0 and 8. *)
Definition ex_blk_world : world := ex_world (ex_device 0 (ex_blk_config 2048 512) 8).
Definition ex_blk_dev : virtio_device := ex_dev 0 8 0.
Definition ex_blk_dev_lap : virtio_device := ex_dev 0 8 8.

(** The same device with 10 blocks, and with 2^33 blocks. *)
Definition ex_small_world : world := ex_world (ex_device 0 (ex_blk_config 10 512) 8).
Definition ex_big_world : world := ex_world (ex_device 0 (ex_blk_config (2^33) 512) 8).

(** A legacy block device that offers BLK_SIZE and reports blocks of 1000
    bytes. *)
Definition ex_odd_world : world :=
  ex_world (ex_device VIRTIO_BLK_F_BLK_SIZE (ex_blk_config 2048 1000) 8).

(** A legacy net device with the MAC address 02:ca:fe:ba:be:01. *)
Definition ex_net_config : Z -> Z :=
  fun off =>
    if off =? 0 then 2 else if off =? 1 then 202 else if off =? 2 then 254
    else if off =? 3 then 186 else if off =? 4 then 190
    else if off =? 5 then 1 else 0.
Definition ex_net_world : world := ex_world (ex_device 0 ex_net_config 8).
Definition ex_net_dev : virtio_device := ex_dev 0 0 0.

(** A running legacy net instance with queues of 8 entries.  The device
    has used one receive chain: [used.idx] is 1 and [used.ring[0]] is
    [{id 2, len 74}]; descriptor 3 points to the payload at 6086;
    [avail.idx] is 4.  Memory holds at each address the address modulo
    251. *)
Definition ex_rx_vq : vqs :=
  mk_vqs 8 4540 4540
    (upd (upd (fun _ => zero_desc) 2 (mk_desc 6076 10 3 3))
         3 (mk_desc 6086 1526 2 0))
    (mk_avail 0 4 (fun i => 2 * i))
    (mk_used 0 1 (upd (fun _ => mk_used_elem 0 0) 0 (mk_used_elem 2 74))).
Definition ex_tx_vq : vqs :=
  mk_vqs 8 20000 20000 (fun _ => zero_desc) (mk_avail 1 0 (fun _ => 0))
         (mk_used 0 0 (fun _ => mk_used_elem 0 0)).
Definition ex_vnet : virtio_net :=
  mk_vnet (mk_driver 1 ex_net_config)
          (mk_dev 0 (fun q => if q =? 0 then ex_rx_vq else ex_tx_vq)).
Definition ex_rx_world : world :=
  mk_world (ex_device 0 ex_net_config 8) (fun a => a mod 251)
           40000 (2^20) 4096 10 0 0 [].

(** The copies a run makes: destination, source and length of every
    [memcpy], in order. *)
Fixpoint copies (t : list event) : list (Z * Z * Z) :=
  match t with
  | [] => []
  | BufCopy dst src n :: t' => (dst, src, n) :: copies t'
  | _ :: t' => copies t'
  end.

(** The slot of the transmit pool [virtionet_xmit] copies the packet to. *)
Definition tx_buf_addr (vnet : virtio_net) : Z :=
  let q := vq (vdev vnet) VQ_TX in
  buf_mem q + ((tx_idx vnet * 2) mod (vq_size q / 2)) / 2 * BUFFER_ENTRY_SIZE.

(** What [virtionet_receive_check] finds in the used entry under the
    cursor. *)
Definition rx_used_len (vnet : virtio_net) (w : world) : Z :=
  let q := vq (vdev vnet) VQ_RX in
  virtio_modern32_to_cpu (vdev vnet)
    (ue_len (u_ring (used q) (last_rx_idx w mod vq_size q))).

(** ** Symbolic execution *)

(** Unfolds the monad, the transport shim and the record updates, and
    reduces the fields of the records built. *)
Ltac run_once :=
  cbv beta iota zeta delta
    [bind ret log modify get sync mb
     avail_idx_load avail_ring_store avail_idx_store avail_flags_store
     used_idx_load used_ring_load memcpy
     virtio_get_config virtio_fill_desc virtio_free_desc virtio_desc_addr
     virtio_queue_notify virtio_reset_device virtio_set_status virtio_get_status
     virtio_get_host_features virtio_set_guest_features
     virtio_negotiate_guest_features virtio_get_qsize virtio_queue_init_vq
     virtio_queue_ready virtio_queue_term_vq
     SLOF_alloc_mem_aligned SLOF_free_mem_aligned SLOF_alloc_mem SLOF_free_mem
     cma_alloc malloc free
     set_trace set_hw set_mem set_cma_next set_heap_free set_net_hdr_size
     set_last_rx_idx set_last_tx_idx
     set_status set_guest set_queue_sel set_queue_ready set_interrupt_status
     set_config
     trace hw mem cma_next cma_end heap_free net_hdr_size last_rx_idx last_tx_idx
     status host_features guest_features keeps_features_ok config queue_num_max
     queue_sel queue_ready interrupt_status] in *;
  cbn [fst snd negb orb andb] in *;
  change (nonzero 0) with false in *; change (nonzero (-1)) with true in *;
  cbv beta iota in *.
Ltac run := run_once; run_once.

(** Brings a log built by successive appends to the form [t ++ [e1; ...]]. *)
Ltac flat_trace := repeat rewrite <- app_assoc; cbn [app].

(** [run], with the updates of the driver structures and the MAC loop. *)
Ltac run_drv :=
  cbv beta iota zeta delta
    [set_running set_vdev set_mac set_features read_mac
     vdev driver running mac_addr features] in *;
  run.

(** Splits on the condition of an [if] of the goal. *)
Ltac case_if :=
  match goal with
  | |- context [if ?c then _ else _] =>
      lazymatch c with
      | context [if _ then _ else _] => fail
      | _ => destruct c eqn:?
      end
  end.


(** ** Running the drivers *)

Lemma emitted_app {A} (m : M A) (w : world) (evs : list event) :
  trace (snd (m w)) = trace w ++ evs -> emitted m w = evs.
Proof.
  intros H. unfold emitted. rewrite H.
  rewrite skipn_app, skipn_all, Nat.sub_diag. reflexivity.
Qed.

Lemma upd_same {A} (f : Z -> A) k v : upd f k v k = v.
Proof. unfold upd. rewrite Z.eqb_refl. reflexivity. Qed.

Lemma upd_other {A} (f : Z -> A) k v k' : k' <> k -> upd f k v k' = f k'.
Proof. intros H. unfold upd. apply Z.eqb_neq in H. rewrite H. reflexivity. Qed.

(** The whole of an accepted [virtioblk_transfer]. *)
Lemma virtioblk_transfer_accepted dev data buf blocknum cnt type w :
  blk_accepts w blocknum cnt = true ->
  let blk_size := blk_blk_size w in
  let avail_idx := blk_avail_idx dev in
  let id := blk_head dev in
  let feat := features dev in
  let hdr := fill_blk_hdr (blkhdr data) (nonzero feat) type 1
               (u64 (blocknum * blk_size) / DEFAULT_SECTOR_SIZE) in
  let d0 := desc_entry feat (blkhdr_pa data) sizeof_virtio_blk_req
              VRING_DESC_F_NEXT (id + 1) in
  let d1 := desc_entry feat buf (cnt * blk_size)
              (Z.lor VRING_DESC_F_NEXT
                 (if nonzero (Z.land type 1) then 0 else VRING_DESC_F_WRITE))
              (id + 2) in
  let d2 := desc_entry feat (status_pa data) 1 VRING_DESC_F_WRITE 0 in
  let slot := avail_idx mod vq_size (vq dev 0) in
  let head := virtio_cpu_to_modern16 dev id in
  let new_idx := virtio_cpu_to_modern16 dev (avail_idx + 1) in
  let q := set_avail_idx
             (set_avail_ring
                (set_desc (set_desc (set_desc (vq dev 0) id d0) (id + 1) d1)
                          (id + 2) d2)
                slot head)
             new_idx in
  let r := virtioblk_transfer dev data buf blocknum cnt type w in
  fst r = (0, set_vq dev 0 q, mk_blk_data hdr (blkhdr_pa data) (status_pa data))
  /\ trace (snd r) = trace w ++
        [RegRead (ConfigReg blk_cfg_capacity); RegRead (ConfigReg blk_cfg_blk_size);
         AvailIdxRead; HdrWrite hdr;
         DescWrite id d0; DescWrite (id + 1) d1; DescWrite (id + 2) d2;
         AvailRingWrite slot head; Barrier; AvailIdxWrite new_idx;
         RegWrite QueueNotifyReg 0]
  /\ hw (snd r) = hw w /\ mem (snd r) = mem w.
Proof.
  intros H blk_size avail_idx id feat hdr d0 d1 d2 slot head new_idx q r.
  unfold blk_accepts, blk_in_capacity, blk_size_aligned, blk_capacity, blk_blk_size in H.
  apply andb_prop in H. destruct H as [H1 H2].
  apply negb_true_iff in H1. apply negb_true_iff in H2.
  subst r. unfold virtioblk_transfer. run.
  rewrite H1. run. rewrite H2. run. flat_trace. repeat split.
Qed.

(** A request beyond the capacity: one configuration read, nothing else. *)
Lemma virtioblk_transfer_beyond_capacity dev data buf blocknum cnt type w :
  blk_in_capacity w blocknum cnt = false ->
  virtioblk_transfer dev data buf blocknum cnt type w =
    ((0, dev, data),
     set_trace w (trace w ++ [RegRead (ConfigReg blk_cfg_capacity)])).
Proof.
  unfold blk_in_capacity, blk_capacity. intros H.
  apply negb_false_iff in H.
  unfold virtioblk_transfer. run. rewrite H. reflexivity.
Qed.

(** A block size that is no multiple of 512: two configuration reads. *)
Lemma virtioblk_transfer_unaligned dev data buf blocknum cnt type w :
  blk_in_capacity w blocknum cnt = true ->
  blk_size_aligned w = false ->
  virtioblk_transfer dev data buf blocknum cnt type w =
    ((0, dev, data),
     set_trace w (trace w ++ [RegRead (ConfigReg blk_cfg_capacity);
                              RegRead (ConfigReg blk_cfg_blk_size)])).
Proof.
  unfold blk_in_capacity, blk_size_aligned, blk_capacity, blk_blk_size.
  intros H1 H2. apply negb_true_iff in H1. apply negb_false_iff in H2.
  unfold virtioblk_transfer. run. rewrite H1. run. rewrite H2. run.
  flat_trace. reflexivity.
Qed.

(** The whole of a [virtionet_xmit] that is not too big. *)
Lemma virtionet_xmit_submits vnet buf len w :
  (len >? BUFFER_ENTRY_SIZE) = false ->
  let d := vdev vnet in
  let feat := features d in
  let q0 := vq d VQ_TX in
  let idx := tx_idx vnet in
  let id := tx_head vnet in
  let buf_index := (idx * 2) mod (vq_size q0 / 2) in
  let buf_addr := buf_mem q0 + (buf_index / 2) * BUFFER_ENTRY_SIZE in
  let nethdr := if is_version_1 feat then nethdr_v1 else nethdr_legacy in
  let d0 := desc_entry feat nethdr (net_hdr_size w) VRING_DESC_F_NEXT (id + 1) in
  let d1 := desc_entry feat buf_addr len 0 0 in
  let slot := idx mod vq_size q0 in
  let head := virtio_cpu_to_modern16 d id in
  let new_idx := virtio_cpu_to_modern16 d (idx + 1) in
  let q := set_avail_idx
             (set_avail_ring (set_desc (set_desc q0 id d0) (id + 1) d1) slot head)
             new_idx in
  let r := virtionet_xmit vnet buf len w in
  fst r = (len, set_vdev vnet (set_vq d VQ_TX q))
  /\ trace (snd r) = trace w ++
        [AvailIdxRead; BufCopy buf_addr buf (u64 len);
         DescFree id; DescFree (id + 1);
         DescWrite id d0; DescWrite (id + 1) d1;
         AvailRingWrite slot head; Barrier; AvailIdxWrite new_idx; Barrier;
         UsedIdxRead; RegWrite QueueNotifyReg VQ_TX]
  /\ hw (snd r) = hw w
  /\ mem (snd r) = copy_bytes (mem w) buf_addr buf (Z.to_nat (u64 len)) (mem w)
  /\ last_tx_idx (snd r) = u_idx (used q0).
Proof.
  intros H d feat q0 idx id buf_index buf_addr nethdr d0 d1 slot head new_idx q r.
  subst r. unfold virtionet_xmit. rewrite H. run. flat_trace. repeat split.
Qed.

(** The whole of a [virtionet_receive] that finds a used entry. *)
Lemma virtionet_receive_pending vnet buf maxlen w :
  rx_pending vnet w = true ->
  let d := vdev vnet in
  let q0 := vq d VQ_RX in
  let id := rx_payload_desc vnet w in
  let len := rx_len vnet w maxlen in
  let src := virtio_modern64_to_cpu d (d_addr (desc q0 id)) in
  let avail_idx := virtio_modern16_to_cpu d (a_idx (avail q0)) in
  let slot := avail_idx mod vq_size q0 in
  let head := virtio_cpu_to_modern16 d (u32 (id - 1)) in
  let new_idx := virtio_cpu_to_modern16 d (avail_idx + 1) in
  let q := set_avail_idx (set_avail_ring q0 slot head) new_idx in
  let r := virtionet_receive vnet buf maxlen w in
  fst r = (s32 len, set_vdev vnet (set_vq d VQ_RX q))
  /\ trace (snd r) = trace w ++
        [UsedIdxRead;
         UsedRingRead (last_rx_idx w mod vq_size q0);
         UsedRingRead (last_rx_idx w mod vq_size q0);
         DescRead id; BufCopy buf src (u64 len);
         AvailIdxRead; AvailRingWrite slot head; Barrier;
         AvailIdxWrite new_idx; RegWrite QueueNotifyReg VQ_RX]
  /\ hw (snd r) = hw w
  /\ mem (snd r) = copy_bytes (mem w) buf src (Z.to_nat (u64 len)) (mem w)
  /\ last_rx_idx (snd r) = u16 (last_rx_idx w + 1).
Proof.
  intros H d q0 id len src avail_idx slot head new_idx q r.
  unfold rx_pending in H. apply negb_true_iff in H.
  subst r. unfold virtionet_receive. run. rewrite H. run. flat_trace.
  repeat split.
Qed.

(** Nothing pending: [virtionet_receive] reads [used.idx] and returns 0. *)
Lemma virtionet_receive_idle vnet buf maxlen w :
  rx_pending vnet w = false ->
  virtionet_receive vnet buf maxlen w =
    ((0, vnet), set_trace w (trace w ++ [UsedIdxRead])).
Proof.
  unfold rx_pending. intros H. apply negb_false_iff in H.
  unfold virtionet_receive. run. rewrite H. reflexivity.
Qed.

(** ** Publishing a chain: the available ring and [avail.idx] *)

(** On a legacy device the adapter only truncates. *)
Lemma legacy_cpu_to_modern16 dev v :
  is_version_1 (features dev) = false -> virtio_cpu_to_modern16 dev v = u16 v.
Proof. intros H. unfold virtio_cpu_to_modern16. rewrite H. reflexivity. Qed.

Lemma legacy_modern16_to_cpu dev v :
  is_version_1 (features dev) = false -> virtio_modern16_to_cpu dev v = u16 v.
Proof. intros H. unfold virtio_modern16_to_cpu. rewrite H. reflexivity. Qed.

Lemma u16_range x : 0 <= u16 x < 2^16.
Proof. unfold u16. apply Z.mod_pos_bound. lia. Qed.

Lemma u16_small x : 0 <= x < 2^16 -> u16 x = x.
Proof. intros H. unfold u16. apply Z.mod_small. exact H. Qed.

(** Where [virtioblk_transfer] puts the head and what it stores into
    [avail.idx]: the index reduced modulo the queue size, plus one. *)
Lemma virtioblk_transfer_publishes dev data buf blocknum cnt type w :
  blk_accepts w blocknum cnt = true ->
  let q' := vq (snd (fst (fst (virtioblk_transfer dev data buf blocknum cnt type w)))) 0 in
  a_ring (avail q') (blk_avail_idx dev mod vq_size (vq dev 0))
    = virtio_cpu_to_modern16 dev (blk_head dev)
  /\ a_idx (avail q') = virtio_cpu_to_modern16 dev (blk_avail_idx dev + 1).
Proof.
  intros H.
  destruct (virtioblk_transfer_accepted dev data buf blocknum cnt type w H)
    as (R & _).
  rewrite R. cbn [fst snd set_vq vq]. rewrite upd_same.
  cbn [set_avail_idx set_avail_ring set_avail avail a_ring a_idx].
  rewrite upd_same. split; reflexivity.
Qed.

(** While [avail.idx] is below the queue size the reduction is invisible:
    the stored index is the old one plus one. *)
Lemma virtioblk_transfer_idx_below_size dev data buf blocknum cnt type w :
  blk_accepts w blocknum cnt = true ->
  is_version_1 (features dev) = false ->
  0 <= a_idx (avail (vq dev 0)) < vq_size (vq dev 0) ->
  vq_size (vq dev 0) <= 2^16 ->
  a_idx (avail (vq (snd (fst (fst (virtioblk_transfer dev data buf blocknum cnt type w)))) 0))
    = u16 (a_idx (avail (vq dev 0)) + 1).
Proof.
  intros H L R S.
  destruct (virtioblk_transfer_publishes dev data buf blocknum cnt type w H) as [_ E].
  rewrite E, legacy_cpu_to_modern16 by exact L.
  unfold blk_avail_idx. rewrite legacy_modern16_to_cpu by exact L.
  rewrite (u16_small (a_idx _)) by lia.
  rewrite (Z.mod_small (a_idx _)) by lia.
  rewrite (u16_small (a_idx _)) by lia. reflexivity.
Qed.

(** [virtionet_xmit] keeps the index free-running: the head goes to slot
    [avail.idx mod Q] and [avail.idx] becomes the old value plus one,
    truncated to 16 bits by the adapter. *)
Lemma virtionet_xmit_publishes vnet buf len w :
  (len >? BUFFER_ENTRY_SIZE) = false ->
  let q' := vq (vdev (snd (fst (virtionet_xmit vnet buf len w)))) VQ_TX in
  a_ring (avail q') (tx_idx vnet mod vq_size (vq (vdev vnet) VQ_TX))
    = virtio_cpu_to_modern16 (vdev vnet) (tx_head vnet)
  /\ a_idx (avail q') = virtio_cpu_to_modern16 (vdev vnet) (tx_idx vnet + 1).
Proof.
  intros H.
  destruct (virtionet_xmit_submits vnet buf len w H) as (R & _).
  rewrite R. cbn [fst snd set_vdev vdev set_vq vq]. rewrite upd_same.
  cbn [set_avail_idx set_avail_ring set_avail avail a_ring a_idx].
  rewrite upd_same. split; reflexivity.
Qed.

Lemma virtionet_xmit_idx_legacy vnet buf len w :
  (len >? BUFFER_ENTRY_SIZE) = false ->
  is_version_1 (features (vdev vnet)) = false ->
  a_idx (avail (vq (vdev (snd (fst (virtionet_xmit vnet buf len w)))) VQ_TX))
    = (u16 (a_idx (avail (vq (vdev vnet) VQ_TX))) + 1) mod 2^16.
Proof.
  intros H L.
  destruct (virtionet_xmit_publishes vnet buf len w H) as [_ E].
  rewrite E, legacy_cpu_to_modern16 by exact L.
  unfold tx_idx. rewrite legacy_modern16_to_cpu by exact L. reflexivity.
Qed.

(** C1.  The claim: every accepted [virtioblk_transfer] stores into
    [avail.idx] the old 16-bit value plus one modulo 2^16, not reduced
    modulo the queue size.  On a legacy device with a queue of 8 entries
    and [avail.idx = 8] the request for block 0 is accepted, the old value
    plus one is 9, and the driver stores 1: line 146 reduces the index
    modulo the queue size before the increment. *)
Theorem virtioblk_transfer_avail_idx_reduced :
  blk_accepts ex_blk_world 0 1 = true
  /\ vq_size (vq ex_blk_dev_lap 0) = 8
  /\ a_idx (avail (vq ex_blk_dev_lap 0)) = 8
  /\ u16 (a_idx (avail (vq ex_blk_dev_lap 0)) + 1) = 9
  /\ a_idx (avail (vq (snd (fst (fst
         (virtioblk_transfer ex_blk_dev_lap ex_data 8192 0 1 VIRTIO_BLK_T_IN
            ex_blk_world)))) 0)) = 1.
Proof. vm_compute. repeat split; reflexivity. Qed.

(** ** Barriers *)

(** C2.  The claim: in every submission a barrier follows the descriptor
    and ring writes and precedes the store to [avail.idx], and a second
    barrier follows that store and precedes the notification.  Every
    accepted [virtioblk_transfer] issues the first barrier and none
    between the store to [avail.idx] and [virtio_queue_notify]. *)
Theorem virtioblk_transfer_single_barrier dev data buf blocknum cnt type w :
  blk_accepts w blocknum cnt = true ->
  let t := emitted (virtioblk_transfer dev data buf blocknum cnt type) w in
  barrier_before_idx t = true /\ barrier_before_notify t = false.
Proof.
  intros H t. subst t.
  destruct (virtioblk_transfer_accepted dev data buf blocknum cnt type w H)
    as (_ & T & _).
  rewrite (emitted_app _ _ _ T). split; reflexivity.
Qed.

(** [virtionet_xmit] issues both barriers. *)
Lemma virtionet_xmit_two_barriers vnet buf len w :
  (len >? BUFFER_ENTRY_SIZE) = false ->
  let t := emitted (virtionet_xmit vnet buf len) w in
  barrier_before_idx t = true /\ barrier_before_notify t = true.
Proof.
  intros H t. subst t.
  destruct (virtionet_xmit_submits vnet buf len w H) as (_ & T & _).
  rewrite (emitted_app _ _ _ T). split; reflexivity.
Qed.

(** ** The capacity check *)

(** A rejected request leaves the device, memory, the allocators and the
    queues as they were: the only access is the read of the capacity. *)
Lemma virtioblk_transfer_rejected_intact dev data buf blocknum cnt type w :
  blk_in_capacity w blocknum cnt = false ->
  let r := virtioblk_transfer dev data buf blocknum cnt type w in
  fst r = (0, dev, data)
  /\ hw (snd r) = hw w /\ mem (snd r) = mem w
  /\ emitted (virtioblk_transfer dev data buf blocknum cnt type) w
       = [RegRead (ConfigReg blk_cfg_capacity)].
Proof.
  intros H r. subst r.
  rewrite (emitted_app _ w [RegRead (ConfigReg blk_cfg_capacity)])
    by (rewrite (virtioblk_transfer_beyond_capacity dev data buf blocknum cnt type w H);
        reflexivity).
  rewrite (virtioblk_transfer_beyond_capacity dev data buf blocknum cnt type w H).
  repeat split; reflexivity.
Qed.

(** As long as [blocknum + cnt - 1] fits 64 bits the check is the
    comparison with the capacity. *)
Lemma blk_in_capacity_no_wrap w blocknum cnt :
  0 <= blocknum + cnt - 1 < 2^64 ->
  blk_in_capacity w blocknum cnt = (blocknum + cnt - 1 <=? blk_capacity w).
Proof.
  intros H. unfold blk_in_capacity, u64. rewrite Z.mod_small by exact H.
  rewrite Z.gtb_ltb, <- Z.leb_antisym. reflexivity.
Qed.

(** C5.  The claim: every call with [start_block + count - 1 > capacity]
    is rejected and changes nothing.  With capacity 10, the request for 2
    blocks from block 2^64 - 1 exceeds it; the sum wraps to 0 in the
    64-bit check, the request is accepted, three descriptors are written,
    [avail.idx] advances and the queue is notified. *)
Theorem virtioblk_transfer_capacity_check_wraps :
  blk_capacity ex_small_world = 10
  /\ ((2^64 - 1) + 2 - 1 >? blk_capacity ex_small_world) = true
  /\ a_idx (avail (vq ex_blk_dev 0)) = 0
  /\ a_idx (avail (vq (snd (fst (fst
         (virtioblk_transfer ex_blk_dev ex_data 8192 (2^64 - 1) 2
            VIRTIO_BLK_T_IN ex_small_world)))) 0)) = 1
  /\ reg_writes (emitted
         (virtioblk_transfer ex_blk_dev ex_data 8192 (2^64 - 1) 2 VIRTIO_BLK_T_IN)
         ex_small_world) = [RegWrite QueueNotifyReg 0]
  /\ length (filter is_ring_write (emitted
         (virtioblk_transfer ex_blk_dev ex_data 8192 (2^64 - 1) 2 VIRTIO_BLK_T_IN)
         ex_small_world)) = 4%nat.
Proof. vm_compute. repeat split; reflexivity. Qed.

(** ** The request header *)

(** What an accepted transfer leaves in the header: the sector passes
    through the [uint32_t] parameter of [fill_blk_hdr], and the byte order
    is chosen by [features != 0]. *)
Lemma virtioblk_transfer_header dev data buf blocknum cnt type w :
  blk_accepts w blocknum cnt = true ->
  blkhdr (snd (fst (virtioblk_transfer dev data buf blocknum cnt type w)))
    = fill_blk_hdr (blkhdr data) (nonzero (features dev)) type 1
        (u64 (blocknum * blk_blk_size w) / DEFAULT_SECTOR_SIZE).
Proof.
  intros H.
  destruct (virtioblk_transfer_accepted dev data buf blocknum cnt type w H)
    as (R & _).
  rewrite R. reflexivity.
Qed.

Lemma virtioblk_transfer_header_legacy dev data buf blocknum cnt type w :
  blk_accepts w blocknum cnt = true ->
  features dev = 0 ->
  let hdr := blkhdr (snd (fst (virtioblk_transfer dev data buf blocknum cnt type w))) in
  req_type hdr = u32 type
  /\ req_sector hdr = u32 (u64 (blocknum * blk_blk_size w) / DEFAULT_SECTOR_SIZE).
Proof.
  intros H F hdr. subst hdr.
  rewrite (virtioblk_transfer_header dev data buf blocknum cnt type w H), F.
  split; reflexivity.
Qed.

(** C7.  The claim: the sector field of the header is
    [start_block * blk_size / 512] as an unsigned 64-bit value.  With 512-byte
    blocks on a device of 2^33 blocks, the accepted read of block 2^32 should
    carry sector 2^32; the header carries 0, the sector having been
    truncated to 32 bits on its way into [fill_blk_hdr]. *)
Theorem virtioblk_transfer_sector_truncated :
  blk_accepts ex_big_world (2^32) 1 = true
  /\ u64 (2^32 * blk_blk_size ex_big_world / 512) = 2^32
  /\ req_type (blkhdr (snd (fst
         (virtioblk_transfer ex_blk_dev ex_data 8192 (2^32) 1 VIRTIO_BLK_T_IN
            ex_big_world)))) = VIRTIO_BLK_T_IN
  /\ req_sector (blkhdr (snd (fst
         (virtioblk_transfer ex_blk_dev ex_data 8192 (2^32) 1 VIRTIO_BLK_T_IN
            ex_big_world)))) = 0.
Proof. vm_compute. repeat split; reflexivity. Qed.

(** ** The data descriptor *)

Lemma desc_entry_fields dev addr len flags next :
  desc_entry (features dev) addr len flags next
  = mk_desc (virtio_cpu_to_modern64 dev addr) (virtio_cpu_to_modern32 dev len)
            (virtio_cpu_to_modern16 dev flags) (virtio_cpu_to_modern16 dev next).
Proof.
  unfold desc_entry, virtio_cpu_to_modern64, virtio_cpu_to_modern32,
    virtio_cpu_to_modern16.
  destruct (is_version_1 (features dev)); reflexivity.
Qed.

(** The descriptor at slot [id + 1] after an accepted transfer, for any
    request type: the direction is bit 0 of the type. *)
Lemma virtioblk_transfer_data_desc dev data buf blocknum cnt type w :
  blk_accepts w blocknum cnt = true ->
  let id := blk_head dev in
  desc (vq (snd (fst (fst (virtioblk_transfer dev data buf blocknum cnt type w)))) 0)
       (id + 1)
  = desc_entry (features dev) buf (cnt * blk_blk_size w)
      (Z.lor VRING_DESC_F_NEXT
         (if nonzero (Z.land type 1) then 0 else VRING_DESC_F_WRITE))
      (id + 2).
Proof.
  intros H id. subst id.
  destruct (virtioblk_transfer_accepted dev data buf blocknum cnt type w H)
    as (R & _).
  rewrite R. cbn [fst snd set_vq vq]. rewrite upd_same.
  cbn [set_avail_idx set_avail_ring set_avail set_desc desc].
  rewrite upd_other by lia. rewrite upd_same. reflexivity.
Qed.

(** C8, amended.  For every accepted transfer whose type is READ (0),
    WRITE (1) or FLUSH (4), the descriptor at slot [id + 1] holds, through
    the byte-order adapter, the buffer address, the length
    [count * blk_size] as a 32-bit value, the flags
    [NEXT | (op == WRITE ? 0 : WRITE)] -- the device-writable flag is set
    for READ and for FLUSH alike -- and the link [id + 2] as a 16-bit
    value. *)
Theorem virtioblk_transfer_data_descriptor dev data buf blocknum cnt type w :
  blk_accepts w blocknum cnt = true ->
  type = VIRTIO_BLK_T_IN \/ type = VIRTIO_BLK_T_OUT \/ type = VIRTIO_BLK_T_FLUSH ->
  let id := blk_head dev in
  let d := desc (vq (snd (fst (fst
             (virtioblk_transfer dev data buf blocknum cnt type w)))) 0) (id + 1) in
  d_addr d = virtio_cpu_to_modern64 dev buf
  /\ d_len d = virtio_cpu_to_modern32 dev (cnt * blk_blk_size w)
  /\ d_flags d = virtio_cpu_to_modern16 dev
       (Z.lor VRING_DESC_F_NEXT
          (if type =? VIRTIO_BLK_T_OUT then 0 else VRING_DESC_F_WRITE))
  /\ d_next d = virtio_cpu_to_modern16 dev (id + 2).
Proof.
  intros H T id d. subst d id.
  rewrite (virtioblk_transfer_data_desc dev data buf blocknum cnt type w H).
  rewrite desc_entry_fields. cbn [d_addr d_len d_flags d_next].
  repeat split.
  destruct T as [T | [T | T]]; subst type; reflexivity.
Qed.

(** ** Initialisation *)

Lemma skipn_own_length {A} (l l' : list A) : skipn (length l) (l ++ l') = l'.
Proof. rewrite skipn_app, skipn_all, Nat.sub_diag. reflexivity. Qed.

Lemma status_writes_app t1 t2 :
  status_writes (t1 ++ t2) = status_writes t1 ++ status_writes t2.
Proof.
  induction t1 as [| e t1 IH]; [reflexivity |].
  destruct e as [r | r v | | | | | | | | | | | | ]; cbn; try exact IH.
  destruct r; cbn; rewrite ?IH; reflexivity.
Qed.

(** Whatever is ORed with FAILED and written to the status register
    leaves the FAILED bit in the register. *)
Lemma failed_bit_latched keeps s st :
  Z.land (device_latch keeps (Z.lor s (u8 (Z.lor st VIRTIO_STAT_FAILED))))
         VIRTIO_STAT_FAILED <> 0.
Proof.
  intros E.
  assert (T : Z.testbit (Z.lor s (u8 (Z.lor st VIRTIO_STAT_FAILED))) 7 = true).
  { rewrite Z.lor_spec. unfold u8.
    rewrite Z.mod_pow2_bits_low by lia. rewrite Z.lor_spec.
    replace (Z.testbit VIRTIO_STAT_FAILED 7) with true by reflexivity.
    rewrite !orb_true_r. reflexivity. }
  assert (B : Z.testbit (device_latch keeps
                (Z.lor s (u8 (Z.lor st VIRTIO_STAT_FAILED)))) 7 = true).
  { unfold device_latch. destruct keeps.
    - exact T.
    - rewrite Z.ldiff_spec, T. reflexivity. }
  apply (f_equal (fun x => Z.testbit x 7)) in E.
  rewrite Z.land_spec, B in E. rewrite Z.bits_0 in E. discriminate.
Qed.

(** [virtioblk_init] that does not end in FAILED returns the block size
    of the configuration when the host offers BLK_SIZE, whatever that size
    is, and 512 otherwise. *)
Lemma virtioblk_init_returns dev w :
  Z.land (status (hw (snd (virtioblk_init dev w)))) VIRTIO_STAT_FAILED = 0 ->
  fst (fst (virtioblk_init dev w)) =
    if nonzero (Z.land (u64 (host_features (hw w))) VIRTIO_BLK_F_BLK_SIZE)
    then blk_blk_size w else DEFAULT_SECTOR_SIZE.
Proof.
  unfold virtioblk_init, virtioblk_init_dev_error, blk_blk_size.
  destruct (is_version_1 (features dev)) eqn:V; run;
  repeat (case_if; run); intros F;
  try (exfalso; revert F; apply failed_bit_latched); reflexivity.
Qed.

(** On a legacy device, [virtioblk_init] that does not end in FAILED has
    written 0, 1, 3 and 7 to the status register. *)
Lemma virtioblk_init_legacy_status dev w :
  is_version_1 (features dev) = false ->
  Z.land (status (hw (snd (virtioblk_init dev w)))) VIRTIO_STAT_FAILED = 0 ->
  status_writes (emitted (virtioblk_init dev) w) = [0; 1; 3; 7].
Proof.
  intros V. unfold emitted, virtioblk_init, virtioblk_init_dev_error.
  rewrite V. run.
  repeat (case_if; run); intros F;
  try (exfalso; revert F; apply failed_bit_latched);
  flat_trace; rewrite skipn_own_length; reflexivity.
Qed.

(** [virtioblk_init] looks at the configuration only to return the block
    size: whether it ends in FAILED, what it writes to the status register
    and every access it makes are the same whatever the configuration
    holds. *)
Lemma virtioblk_init_ignores_config dev w c :
  let wc := set_hw w (set_config (hw w) c) in
  status (hw (snd (virtioblk_init dev wc)))
    = status (hw (snd (virtioblk_init dev w)))
  /\ emitted (virtioblk_init dev) wc = emitted (virtioblk_init dev) w.
Proof.
  intros wc. subst wc.
  unfold emitted, virtioblk_init, virtioblk_init_dev_error.
  destruct (is_version_1 (features dev)) eqn:V; run;
  repeat (case_if; run); flat_trace; rewrite ?skipn_own_length;
  repeat split.
Qed.

(** What [virtioblk_transfer] does on a block size that is no multiple of
    512: nothing but its configuration reads. *)
Lemma virtioblk_transfer_misaligned dev data buf blocknum cnt type w :
  blk_size_aligned w = false ->
  fst (virtioblk_transfer dev data buf blocknum cnt type w) = (0, dev, data)
  /\ hw (snd (virtioblk_transfer dev data buf blocknum cnt type w)) = hw w
  /\ emitted (virtioblk_transfer dev data buf blocknum cnt type) w
       = if blk_in_capacity w blocknum cnt
         then [RegRead (ConfigReg blk_cfg_capacity);
               RegRead (ConfigReg blk_cfg_blk_size)]
         else [RegRead (ConfigReg blk_cfg_capacity)].
Proof.
  intros A. unfold emitted.
  destruct (blk_in_capacity w blocknum cnt) eqn:C.
  - rewrite (virtioblk_transfer_unaligned dev data buf blocknum cnt type w C A).
    cbn [fst snd set_trace trace hw]. rewrite skipn_own_length.
    repeat split.
  - rewrite (virtioblk_transfer_beyond_capacity dev data buf blocknum cnt type
               w C).
    cbn [fst snd set_trace trace hw]. rewrite skipn_own_length.
    repeat split.
Qed.

(** C6, amended.  [virtioblk_init] does not look at the alignment of the
    block size.  Whether it ends in FAILED and every access it makes are
    the same for every content of the configuration, so no block size
    makes it fail; whenever it does not end in FAILED it returns the
    block size read from the configuration if the host offers BLK_SIZE,
    whatever that size is, and 512 otherwise.  The multiple-of-512 check
    is made by [virtioblk_transfer]: on a misaligned block size it
    returns 0, submits nothing and leaves the registers as they were,
    after its two configuration reads when the request is within the
    capacity and after the first one when it is not. *)
Theorem virtioblk_init_sector_size dev w :
  (forall c,
     let wc := set_hw w (set_config (hw w) c) in
     status (hw (snd (virtioblk_init dev wc)))
       = status (hw (snd (virtioblk_init dev w)))
     /\ emitted (virtioblk_init dev) wc = emitted (virtioblk_init dev) w)
  /\ (Z.land (status (hw (snd (virtioblk_init dev w)))) VIRTIO_STAT_FAILED = 0 ->
      fst (fst (virtioblk_init dev w)) =
        if nonzero (Z.land (u64 (host_features (hw w))) VIRTIO_BLK_F_BLK_SIZE)
        then blk_blk_size w else DEFAULT_SECTOR_SIZE)
  /\ (forall data buf blocknum cnt type,
        blk_size_aligned w = false ->
        let r := virtioblk_transfer dev data buf blocknum cnt type w in
        fst r = (0, dev, data)
        /\ hw (snd r) = hw w
        /\ emitted (virtioblk_transfer dev data buf blocknum cnt type) w
             = if blk_in_capacity w blocknum cnt
               then [RegRead (ConfigReg blk_cfg_capacity);
                     RegRead (ConfigReg blk_cfg_blk_size)]
               else [RegRead (ConfigReg blk_cfg_capacity)]).
Proof.
  split; [| split].
  - intros c. apply virtioblk_init_ignores_config.
  - apply virtioblk_init_returns.
  - intros data buf blocknum cnt type A r. subst r.
    apply virtioblk_transfer_misaligned. exact A.
Qed.

(** The receive-queue loop only writes descriptors and ring entries. *)
Lemma rx_prepost_trace n : forall i d hs q w,
  exists evs,
    trace (snd (rx_prepost n i d hs q w)) = trace w ++ evs
    /\ status_writes evs = [] /\ reg_writes evs = [].
Proof.
  induction n as [| n IH]; intros i d hs q w.
  - exists []. cbn [rx_prepost]. run. rewrite app_nil_r. repeat split.
  - cbn [rx_prepost]. run.
    match goal with
    | |- context [rx_prepost n ?i' d hs ?q' ?w'] =>
        destruct (IH i' d hs q' w') as (evs & T & S & R)
    end.
    cbn [trace] in T.
    eexists. split; [rewrite T; flat_trace; reflexivity |].
    cbn [status_writes reg_writes filter is_reg_write]. split; assumption.
Qed.

(** On a legacy device, [virtionet_open] that returns an instance has
    written 0, 1, 3 and 15 to the status register: the last write ORs
    DRIVER_OK and FEATURES_OK into the status. *)
Lemma virtionet_open_legacy_status dev w :
  is_version_1 (features dev) = false ->
  fst (virtionet_open (Some dev) w) <> None ->
  status_writes (emitted (virtionet_open (Some dev)) w) = [0; 1; 3; 15].
Proof.
  intros V. unfold emitted, virtionet_open, virtionet_init_mmio, virtionet_init,
    virtionet_init_dev_error, fresh_vnet.
  run_drv. rewrite V. run_drv.
  repeat (case_if; run_drv); intros F; try (exfalso; apply F; reflexivity).
  all: clear F.
  all: match goal with
       | |- context [rx_prepost ?n ?i ?d ?hs ?q ?W] =>
           destruct (rx_prepost_trace n i d hs q W) as (evs & T & S & _);
           destruct (rx_prepost n i d hs q W) as [q' w'] eqn:E
       end; cbn [snd trace] in T; run_drv.
  all: rewrite T; flat_trace; rewrite skipn_own_length.
  all: cbn [status_writes]; rewrite status_writes_app, S.
  all: reflexivity.
Qed.

(** The status writes of every successful initialisation of a legacy
    device: 0, 1, 3, 7 by the block driver, never with FEATURES_OK, and
    0, 1, 3, 15 by the net driver, whose last write sets DRIVER_OK together
    with FEATURES_OK. *)
Lemma legacy_init_status_trajectory dev w :
  is_version_1 (features dev) = false ->
  (Z.land (status (hw (snd (virtioblk_init dev w)))) VIRTIO_STAT_FAILED = 0 ->
   status_writes (emitted (virtioblk_init dev) w) = [0; 1; 3; 7])
  /\ (fst (virtionet_open (Some dev) w) <> None ->
      status_writes (emitted (virtionet_open (Some dev)) w) = [0; 1; 3; 15]).
Proof.
  intros V. split.
  - apply virtioblk_init_legacy_status. exact V.
  - apply virtionet_open_legacy_status. exact V.
Qed.

(** ** NULL pointers *)

(** C9.  [virtionet_read] and [virtionet_write] called with a NULL
    instance or a NULL buffer return -1 and leave the world as it is:
    nothing is logged, so no ring, descriptor, buffer or register was
    touched. *)
Theorem virtionet_read_write_null vnet buf len w :
  vnet = None \/ buf = 0 ->
  virtionet_read vnet buf len w = ((-1, vnet), w)
  /\ virtionet_write vnet buf len w = ((-1, vnet), w).
Proof.
  intros [N | N]; subst; unfold virtionet_read, virtionet_write.
  - split; reflexivity.
  - destruct vnet; split; reflexivity.
Qed.

(** ** The running flag *)








(** ** Receiving *)

(** What [memcpy] leaves at each address. *)
Lemma copy_bytes_at m n : forall dst src acc a,
  copy_bytes m dst src n acc a =
    if (dst <=? a) && (a <? dst + Z.of_nat n)
    then m (src + (a - dst)) else acc a.
Proof.
  induction n as [| n IH]; intros dst src acc a.
  - cbn [copy_bytes]. destruct (dst <=? a) eqn:L; cbn [andb]; [| reflexivity].
    destruct (a <? dst + Z.of_nat 0) eqn:U; [| reflexivity].
    apply Z.leb_le in L. apply Z.ltb_lt in U. lia.
  - cbn [copy_bytes]. rewrite IH. unfold upd.
    destruct (dst + 1 <=? a) eqn:L1; destruct (a <? dst + 1 + Z.of_nat n) eqn:U1;
    destruct (dst <=? a) eqn:L; destruct (a <? dst + Z.of_nat (S n)) eqn:U;
    destruct (a =? dst) eqn:Q; cbn [andb];
    rewrite ?Z.leb_le, ?Z.leb_gt, ?Z.ltb_lt, ?Z.ltb_ge, ?Z.eqb_eq, ?Z.eqb_neq in *;
    try lia; try reflexivity.
    + f_equal. lia.
    + subst a. f_equal. lia.
Qed.

Lemma read_bytes_ext f g n : forall a b,
  (forall i, 0 <= i < Z.of_nat n -> f (a + i) = g (b + i)) ->
  read_bytes f a n = read_bytes g b n.
Proof.
  induction n as [| n IH]; intros a b H; [reflexivity |].
  cbn [read_bytes]. f_equal.
  - specialize (H 0). rewrite !Z.add_0_r in H. apply H. lia.
  - apply IH. intros i Hi.
    replace (a + 1 + i) with (a + (1 + i)) by lia.
    replace (b + 1 + i) with (b + (1 + i)) by lia.
    apply H. lia.
Qed.

(** The destination of a [memcpy] holds what the source held. *)
Lemma memcpy_copies m dst src n :
  read_bytes (copy_bytes m dst src n m) dst n = read_bytes m src n.
Proof.
  apply read_bytes_ext. intros i Hi. rewrite copy_bytes_at.
  replace (dst <=? dst + i) with true by (symmetry; apply Z.leb_le; lia).
  replace (dst + i <? dst + Z.of_nat n) with true
    by (symmetry; apply Z.ltb_lt; lia).
  cbn [andb]. f_equal. lia.
Qed.

(** When the used id plus one stays below the queue size, the entry put
    back on the available ring is the used id itself. *)
Lemma rx_repost_is_used_id dev id_raw size :
  0 <= id_raw -> id_raw + 1 < size -> size <= 2^32 ->
  virtio_cpu_to_modern16 dev (u32 (u32 (id_raw + 1) mod size - 1))
  = virtio_cpu_to_modern16 dev id_raw.
Proof.
  intros L U S. unfold u32.
  rewrite (Z.mod_small (id_raw + 1)) by lia.
  rewrite (Z.mod_small (id_raw + 1) size) by lia.
  replace (id_raw + 1 - 1) with id_raw by lia.
  rewrite Z.mod_small by lia. reflexivity.
Qed.

(** C4, amended.  A [virtionet_receive] that finds a used entry with id
    [id_raw] copies the payload from the buffer of descriptor
    [(id_raw + 1) mod Q] (the sum taken in 32 bits) and, before the
    barrier, the store to [avail.idx] and the notification of RX, writes
    into [avail.ring[avail.idx mod Q]] the value
    [((id_raw + 1) mod Q) - 1] -- which is [id_raw] itself, the header
    descriptor that heads the chain, whenever [id_raw + 1 < Q]. *)
Theorem virtionet_receive_repost vnet buf maxlen w :
  rx_pending vnet w = true ->
  let d := vdev vnet in
  let q0 := vq d VQ_RX in
  let id_raw := rx_id_raw vnet w in
  let id := u32 (id_raw + 1) mod vq_size q0 in
  let len := rx_len vnet w maxlen in
  let src := virtio_modern64_to_cpu d (d_addr (desc q0 id)) in
  let avail_idx := virtio_modern16_to_cpu d (a_idx (avail q0)) in
  let slot := avail_idx mod vq_size q0 in
  let head := virtio_cpu_to_modern16 d (u32 (id - 1)) in
  let new_idx := virtio_cpu_to_modern16 d (avail_idx + 1) in
  let r := virtionet_receive vnet buf maxlen w in
  let q' := vq (vdev (snd (fst r))) VQ_RX in
  fst (fst r) = s32 len
  /\ read_bytes (mem (snd r)) buf (Z.to_nat (u64 len))
       = read_bytes (mem w) src (Z.to_nat (u64 len))
  /\ a_ring (avail q') slot = head
  /\ a_idx (avail q') = new_idx
  /\ emitted (virtionet_receive vnet buf maxlen) w
       = [UsedIdxRead;
          UsedRingRead (last_rx_idx w mod vq_size q0);
          UsedRingRead (last_rx_idx w mod vq_size q0);
          DescRead id; BufCopy buf src (u64 len);
          AvailIdxRead; AvailRingWrite slot head; Barrier;
          AvailIdxWrite new_idx; RegWrite QueueNotifyReg VQ_RX]
  /\ (0 <= id_raw -> id_raw + 1 < vq_size q0 -> vq_size q0 <= 2^32 ->
      head = virtio_cpu_to_modern16 d id_raw).
Proof.
  intros P d q0 id_raw id len src avail_idx slot head new_idx r q'.
  destruct (virtionet_receive_pending vnet buf maxlen w P)
    as (R & T & _ & M & _).
  subst q' r. rewrite R, M, (emitted_app _ _ _ T).
  cbn [fst snd set_vdev vdev set_vq vq]. rewrite upd_same.
  cbn [set_avail_idx set_avail_ring set_avail avail a_ring a_idx].
  rewrite upd_same.
  repeat split.
  - apply memcpy_copies.
  - intros L U S. apply rx_repost_is_used_id; assumption.
Qed.

(** ** Further properties of the block driver *)

(** On a queue that has entries [virtioblk_transfer] returns 0 on every
    path, also when the request was submitted; it leaves the registers of
    the device as they were, and it writes a transport register exactly
    when it accepts the request: then the one write is the notification
    of queue 0, otherwise there is none. *)
Theorem virtioblk_transfer_returns_zero dev data buf blocknum cnt type w :
  0 < vq_size (vq dev 0) ->
  let r := virtioblk_transfer dev data buf blocknum cnt type w in
  fst (fst (fst r)) = 0
  /\ hw (snd r) = hw w
  /\ reg_writes (emitted (virtioblk_transfer dev data buf blocknum cnt type) w)
     = if blk_accepts w blocknum cnt then [RegWrite QueueNotifyReg 0] else [].
Proof.
  intros _ r. subst r. unfold blk_accepts.
  destruct (blk_in_capacity w blocknum cnt) eqn:C.
  - destruct (blk_size_aligned w) eqn:A.
    + assert (H : blk_accepts w blocknum cnt = true)
        by (unfold blk_accepts; rewrite C, A; reflexivity).
      destruct (virtioblk_transfer_accepted dev data buf blocknum cnt type w H)
        as (R & T & Hh & _).
      rewrite R, Hh, (emitted_app _ _ _ T).
      repeat split.
    + unfold emitted.
      rewrite (virtioblk_transfer_unaligned dev data buf blocknum cnt type w C A).
      cbn [fst snd set_trace trace hw]. rewrite skipn_own_length.
      repeat split.
  - unfold emitted.
    rewrite (virtioblk_transfer_beyond_capacity dev data buf blocknum cnt type w C).
    cbn [fst snd set_trace trace hw]. rewrite skipn_own_length.
    repeat split.
Qed.

(** The chain of an accepted transfer: the header descriptor at the head
    is device-readable, 16 bytes at [blkhdr_pa], linked to the next slot;
    the status descriptor two slots further is one device-writable byte at
    [status_pa] and ends the chain; the header keeps the [ioprio] it
    had. *)
Theorem virtioblk_transfer_chain_ends dev data buf blocknum cnt type w :
  0 < vq_size (vq dev 0) ->
  blk_accepts w blocknum cnt = true ->
  let id := blk_head dev in
  let r := virtioblk_transfer dev data buf blocknum cnt type w in
  let q' := vq (snd (fst (fst r))) 0 in
  desc q' id = mk_desc (virtio_cpu_to_modern64 dev (blkhdr_pa data))
                       (virtio_cpu_to_modern32 dev sizeof_virtio_blk_req)
                       (virtio_cpu_to_modern16 dev VRING_DESC_F_NEXT)
                       (virtio_cpu_to_modern16 dev (id + 1))
  /\ desc q' (id + 2) = mk_desc (virtio_cpu_to_modern64 dev (status_pa data))
                                (virtio_cpu_to_modern32 dev 1)
                                (virtio_cpu_to_modern16 dev VRING_DESC_F_WRITE)
                                (virtio_cpu_to_modern16 dev 0)
  /\ (forall j, j <> id -> j <> id + 1 -> j <> id + 2 ->
        desc q' j = desc (vq dev 0) j)
  /\ req_ioprio (blkhdr (snd (fst r))) = req_ioprio (blkhdr data).
Proof.
  intros _ H id r q'. subst q' r id.
  destruct (virtioblk_transfer_accepted dev data buf blocknum cnt type w H)
    as (R & _).
  rewrite R. cbn [fst snd set_vq vq]. rewrite upd_same.
  cbn [set_avail_idx set_avail_ring set_avail set_desc desc blkhdr].
  rewrite <- !desc_entry_fields.
  repeat split.
  - rewrite !upd_other by lia. apply upd_same.
  - apply upd_same.
  - intros j J0 J1 J2. rewrite !upd_other by assumption. reflexivity.
  - unfold fill_blk_hdr. destruct (nonzero (features dev)); reflexivity.
Qed.

(** When the queue size is a multiple of 3 the three descriptors of the
    chain and the ring slot lie inside the queue. *)
Theorem virtioblk_transfer_chain_in_range dev :
  0 < vq_size (vq dev 0) ->
  vq_size (vq dev 0) mod 3 = 0 ->
  0 <= blk_head dev /\ blk_head dev + 2 < vq_size (vq dev 0)
  /\ 0 <= blk_avail_idx dev mod vq_size (vq dev 0) < vq_size (vq dev 0).
Proof.
  intros Q M. unfold blk_head.
  set (a := blk_avail_idx dev). set (q := vq_size (vq dev 0)) in *.
  assert (A : 0 <= a) by (unfold a, blk_avail_idx; apply u16_range).
  pose proof (Z.mod_pos_bound (a * 3) q Q) as B.
  pose proof (Z.mod_pos_bound a q Q) as S.
  assert (D : ((a * 3) mod q) mod 3 = 0).
  { apply Z.mod_divide in M; [| lia]. destruct M as [m Hm].
    rewrite Hm. rewrite (Z.mul_comm m 3).
    rewrite Z.mul_comm. rewrite Zmult_mod_distr_l.
    rewrite Z.mul_comm. apply Z.mod_mul. lia. }
  apply Z.mod_divide in M; [| lia]. destruct M as [m Hm].
  apply Z.mod_divide in D; [| lia]. destruct D as [k Hk].
  repeat split; lia.
Qed.

(** [virtioblk_init] starts by resetting the device: what it returns,
    what it does and the status it leaves do not depend on the status the
    device had before. *)
Theorem virtioblk_init_after_any_status dev w s :
  let w0 := set_hw w (set_status (hw w) s) in
  fst (virtioblk_init dev w0) = fst (virtioblk_init dev w)
  /\ hw (snd (virtioblk_init dev w0)) = hw (snd (virtioblk_init dev w))
  /\ emitted (virtioblk_init dev) w0 = emitted (virtioblk_init dev) w.
Proof.
  intros w0. subst w0.
  unfold emitted, virtioblk_init, virtioblk_init_dev_error.
  destruct (is_version_1 (features dev)) eqn:V; run;
  repeat (case_if; run); flat_trace; rewrite ?skipn_own_length;
  repeat split.
Qed.

(** [virtioblk_shutdown] writes FAILED and then resets: the status
    register is 0 afterwards, whatever it was. *)
Theorem virtioblk_shutdown_resets dev w :
  status (hw (snd (virtioblk_shutdown dev w))) = 0
  /\ emitted (virtioblk_shutdown dev) w
       = [RegWrite StatusReg VIRTIO_STAT_FAILED; RegWrite StatusReg 0;
          RegRead StatusReg]
  /\ fst (virtioblk_init dev (snd (virtioblk_shutdown dev w)))
       = fst (virtioblk_init dev w).
Proof.
  split; [| split].
  - unfold virtioblk_shutdown. run. reflexivity.
  - unfold emitted, virtioblk_shutdown. run. flat_trace.
    rewrite skipn_own_length. reflexivity.
  - unfold virtioblk_shutdown, virtioblk_init, virtioblk_init_dev_error.
    destruct (is_version_1 (features dev)) eqn:V; run;
    repeat (case_if; run); reflexivity.
Qed.

Lemma failed_bit_written st :
  Z.land (u8 (Z.lor st VIRTIO_STAT_FAILED)) VIRTIO_STAT_FAILED <> 0.
Proof.
  intros E. apply (f_equal (fun x => Z.testbit x 7)) in E.
  rewrite Z.land_spec, Z.bits_0 in E. unfold u8 in E.
  rewrite Z.mod_pow2_bits_low, Z.lor_spec in E by lia.
  replace (Z.testbit VIRTIO_STAT_FAILED 7) with true in E by reflexivity.
  rewrite orb_true_r in E. discriminate E.
Qed.

Lemma driver_ok_written st :
  Z.land (u8 (Z.lor st VIRTIO_STAT_DRIVER_OK)) VIRTIO_STAT_DRIVER_OK <> 0.
Proof.
  intros E. apply (f_equal (fun x => Z.testbit x 2)) in E.
  rewrite Z.land_spec, Z.bits_0 in E. unfold u8 in E.
  rewrite Z.mod_pow2_bits_low, Z.lor_spec in E by lia.
  replace (Z.testbit VIRTIO_STAT_DRIVER_OK 2) with true in E by reflexivity.
  rewrite orb_true_r in E. discriminate E.
Qed.

(** A [virtioblk_init] that leaves the device FAILED returns 0, and the
    last value it wrote to the status register carries the FAILED bit;
    one that does not leave it FAILED ends with a write that sets
    DRIVER_OK. *)
Theorem virtioblk_init_failure dev w :
  let r := virtioblk_init dev w in
  let last_write := last (status_writes (emitted (virtioblk_init dev) w)) 0 in
  (Z.land (status (hw (snd r))) VIRTIO_STAT_FAILED <> 0 ->
     fst (fst r) = 0 /\ Z.land last_write VIRTIO_STAT_FAILED <> 0)
  /\ (Z.land (status (hw (snd r))) VIRTIO_STAT_FAILED = 0 ->
     Z.land last_write VIRTIO_STAT_DRIVER_OK <> 0).
Proof.
  cbv zeta. unfold emitted, virtioblk_init, virtioblk_init_dev_error.
  destruct (is_version_1 (features dev)) eqn:V; run;
  repeat (case_if; run); flat_trace; rewrite ?skipn_own_length;
  cbn [status_writes last].
  all: split; intros F.
  all: lazymatch goal with
       | |- 0 = 0 /\ _ => split; [reflexivity | apply failed_bit_written]
       | |- _ /\ _ =>
           exfalso; apply F; clear F;
           match goal with
           | |- context [device_latch ?k _] => destruct k
           end; reflexivity
       | |- Z.land (u8 (Z.lor _ VIRTIO_STAT_FAILED)) _ <> 0 =>
           exfalso; revert F; apply failed_bit_latched
       | |- Z.land (u8 (Z.lor _ VIRTIO_STAT_DRIVER_OK)) _ <> 0 =>
           apply driver_ok_written
       end.
Qed.

(** ** Further properties of the net driver: transmit *)

(** [virtionet_write] with valid pointers on a transmit queue of at least
    two entries: a packet longer than [BUFFER_ENTRY_SIZE] is refused with
    0 and nothing at all is touched; any other packet is submitted and
    its length returned. *)
Theorem virtionet_write_length n buf len w :
  buf <> 0 ->
  2 <= vq_size (vq (vdev n) VQ_TX) ->
  (BUFFER_ENTRY_SIZE < len ->
     virtionet_write (Some n) buf len w = ((0, Some n), w))
  /\ (0 <= len <= BUFFER_ENTRY_SIZE ->
        fst (fst (virtionet_write (Some n) buf len w)) = len
        /\ reg_writes (emitted (virtionet_write (Some n) buf len) w)
             = [RegWrite QueueNotifyReg VQ_TX]).
Proof.
  intros B _. apply Z.eqb_neq in B.
  unfold virtionet_write, nonzero. rewrite B. cbn [negb].
  split; intros L.
  - unfold virtionet_xmit.
    replace (len >? BUFFER_ENTRY_SIZE) with true
      by (symmetry; apply Z.gtb_lt; lia).
    reflexivity.
  - assert (G : (len >? BUFFER_ENTRY_SIZE) = false).
    { rewrite Z.gtb_ltb. apply Z.ltb_ge. lia. }
    destruct (virtionet_xmit_submits n buf len w G) as (R & T & _).
    unfold emitted, bind.
    destruct (virtionet_xmit n buf len w) as [[r n'] w'] eqn:E.
    cbn [fst snd ret] in *. inversion R; subst.
    rewrite T, skipn_own_length. split; reflexivity.
Qed.

(** What the device finds after a [virtionet_xmit]: at the head a
    device-readable descriptor of [net_hdr_size] bytes on the zeroed static
    header (the modern one exactly when VERSION_1 is set), linked to the
    next slot; there a descriptor of [len] bytes on the slot of the
    transmit pool, which holds the bytes of the caller's buffer. *)
Theorem virtionet_xmit_payload vnet buf len w :
  2 <= vq_size (vq (vdev vnet) VQ_TX) ->
  0 <= len <= BUFFER_ENTRY_SIZE ->
  let d := vdev vnet in
  let id := tx_head vnet in
  let r := virtionet_xmit vnet buf len w in
  let q' := vq (vdev (snd (fst r))) VQ_TX in
  desc q' id
    = mk_desc (virtio_cpu_to_modern64 d
                 (if is_version_1 (features d) then nethdr_v1 else nethdr_legacy))
              (virtio_cpu_to_modern32 d (net_hdr_size w))
              (virtio_cpu_to_modern16 d VRING_DESC_F_NEXT)
              (virtio_cpu_to_modern16 d (id + 1))
  /\ desc q' (id + 1)
    = mk_desc (virtio_cpu_to_modern64 d (tx_buf_addr vnet))
              (virtio_cpu_to_modern32 d len)
              (virtio_cpu_to_modern16 d 0) (virtio_cpu_to_modern16 d 0)
  /\ read_bytes (mem (snd r)) (tx_buf_addr vnet) (Z.to_nat (u64 len))
     = read_bytes (mem w) buf (Z.to_nat (u64 len)).
Proof.
  intros _ L d id r q'. subst q' r id d.
  assert (G : (len >? BUFFER_ENTRY_SIZE) = false).
  { rewrite Z.gtb_ltb. apply Z.ltb_ge. lia. }
  destruct (virtionet_xmit_submits vnet buf len w G) as (R & _ & _ & M & _).
  rewrite R, M. cbn [fst snd set_vdev vdev set_vq vq]. rewrite upd_same.
  cbn [set_avail_idx set_avail_ring set_avail set_desc desc].
  rewrite <- !desc_entry_fields.
  repeat split.
  - rewrite upd_other by lia. apply upd_same.
  - apply upd_same.
  - apply memcpy_copies.
Qed.


(** With a queue of even size the two descriptors of the chain lie inside
    the queue and the head is even. *)
Theorem virtionet_xmit_chain_in_range vnet :
  0 < vq_size (vq (vdev vnet) VQ_TX) ->
  vq_size (vq (vdev vnet) VQ_TX) mod 2 = 0 ->
  0 <= tx_head vnet /\ tx_head vnet + 1 < vq_size (vq (vdev vnet) VQ_TX)
  /\ tx_head vnet mod 2 = 0.
Proof.
  intros Q M. unfold tx_head.
  set (a := tx_idx vnet). set (q := vq_size (vq (vdev vnet) VQ_TX)) in *.
  pose proof (Z.mod_pos_bound (a * 2) q Q) as B.
  assert (D : ((a * 2) mod q) mod 2 = 0).
  { apply Z.mod_divide in M; [| lia]. destruct M as [m Hm].
    rewrite Hm. rewrite (Z.mul_comm m 2).
    rewrite Z.mul_comm. rewrite Zmult_mod_distr_l.
    rewrite Z.mul_comm. apply Z.mod_mul. lia. }
  apply Z.mod_divide in M; [| lia]. destruct M as [m Hm].
  pose proof D as D'.
  apply Z.mod_divide in D; [| lia]. destruct D as [k Hk].
  repeat split; lia.
Qed.

(** ** Further properties of the net driver: receive *)

Lemma u32_range x : 0 <= u32 x < 2^32.
Proof. unfold u32. apply Z.mod_pos_bound. lia. Qed.

(** [virtionet_receive_check] only looks: it returns 0 when the cursor
    has caught up with [used.idx] and otherwise the length of the used
    entry under the cursor, net header included; it reads the used ring
    and changes neither the device, nor memory, nor the cursor. *)
Theorem virtionet_receive_check_peeks vnet w :
  0 < vq_size (vq (vdev vnet) VQ_RX) ->
  let r := virtionet_receive_check vnet w in
  fst r = (if rx_pending vnet w then rx_used_len vnet w else 0)
  /\ hw (snd r) = hw w /\ mem (snd r) = mem w
  /\ last_rx_idx (snd r) = last_rx_idx w
  /\ filter (fun e => negb match e with
                           | UsedIdxRead | UsedRingRead _ => true
                           | _ => false
                           end)
       (emitted (virtionet_receive_check vnet) w) = [].
Proof.
  intros _ r. subst r.
  unfold emitted, virtionet_receive_check, rx_pending, rx_used_len. run.
  case_if; run; flat_trace; rewrite skipn_own_length; repeat split.
Qed.

(** With an entry pending [virtionet_receive_check] returns its length. *)
Lemma virtionet_receive_check_pending vnet w :
  rx_pending vnet w = true ->
  fst (virtionet_receive_check vnet w) = rx_used_len vnet w.
Proof.
  unfold virtionet_receive_check, rx_pending, rx_used_len. run.
  intros P. apply negb_true_iff in P. rewrite P. reflexivity.
Qed.

(** [virtionet_receive] never hands out more than the caller's buffer
    holds: with [0 <= maxlen] the result lies between 0 and [maxlen]; when
    an entry is pending it is the length [virtionet_receive_check]
    reports minus the net header, cut to [maxlen], and the one copy the
    call makes is that of just so many bytes from the payload to the
    buffer; when nothing is pending no copy is made. *)
Theorem virtionet_receive_bounded vnet buf maxlen w :
  0 < vq_size (vq (vdev vnet) VQ_RX) ->
  0 <= maxlen < 2^31 ->
  let r := virtionet_receive vnet buf maxlen w in
  let src := virtio_modern64_to_cpu (vdev vnet)
               (d_addr (desc (vq (vdev vnet) VQ_RX) (rx_payload_desc vnet w))) in
  0 <= fst (fst r) <= maxlen
  /\ (rx_pending vnet w = true ->
      fst (fst r)
      = Z.min (u32 (fst (virtionet_receive_check vnet w) - net_hdr_size w))
              maxlen
      /\ copies (emitted (virtionet_receive vnet buf maxlen) w)
         = [(buf, src, fst (fst r))])
  /\ (rx_pending vnet w = false ->
      copies (emitted (virtionet_receive vnet buf maxlen) w) = []).
Proof.
  intros _ B r src. subst r src.
  destruct (rx_pending vnet w) eqn:P.
  - destruct (virtionet_receive_pending vnet buf maxlen w P)
      as (R & T & _).
    pose proof (virtionet_receive_check_pending vnet w P) as C.
    cbv zeta in *. rewrite R, C, (emitted_app _ _ _ T). cbn [fst snd copies].
    unfold rx_len. fold (rx_used_len vnet w).
    set (l := u32 (rx_used_len vnet w - net_hdr_size w)).
    assert (L : 0 <= l < 2^32) by apply u32_range.
    assert (U : u32 maxlen = maxlen) by (unfold u32; apply Z.mod_small; lia).
    rewrite U.
    assert (K : 0 <= (if l >? maxlen then maxlen else l) <= maxlen
                /\ (if l >? maxlen then maxlen else l) = Z.min l maxlen).
    { destruct (l >? maxlen) eqn:G.
      - apply Z.gtb_lt in G. lia.
      - rewrite Z.gtb_ltb in G. apply Z.ltb_ge in G. lia. }
    destruct K as [K1 K2].
    set (n := if l >? maxlen then maxlen else l) in *.
    assert (S : s32 n = n).
    { unfold s32, u32. rewrite Z.mod_small by lia.
      replace (n <? 2^31) with true by (symmetry; apply Z.ltb_lt; lia).
      reflexivity. }
    assert (U64 : u64 n = n) by (unfold u64; apply Z.mod_small; lia).
    rewrite S, U64. split; [exact K1 |].
    split; [intros _; split; [exact K2 | reflexivity] | discriminate].
  - unfold emitted. rewrite (virtionet_receive_idle vnet buf maxlen w P).
    cbn [fst snd set_trace trace]. rewrite skipn_own_length.
    split; [lia |]. split; [discriminate |]. reflexivity.
Qed.

(** A [virtionet_receive] consumes one used entry or none.  With nothing
    pending it returns 0 and leaves the instance, the cursor and memory
    as they were.  Otherwise the cursor and [avail.idx] of the receive
    queue both advance by one modulo 2^16, one ring entry is written, and
    the descriptor table, the used ring and the transmit queue stay as
    they were. *)
Theorem virtionet_receive_consumes_one vnet buf maxlen w :
  0 < vq_size (vq (vdev vnet) VQ_RX) ->
  let r := virtionet_receive vnet buf maxlen w in
  let d := vdev vnet in
  let q := vq d VQ_RX in
  let q' := vq (vdev (snd (fst r))) VQ_RX in
  (rx_pending vnet w = false ->
     fst r = (0, vnet) /\ mem (snd r) = mem w
     /\ last_rx_idx (snd r) = last_rx_idx w
     /\ emitted (virtionet_receive vnet buf maxlen) w = [UsedIdxRead])
  /\ (rx_pending vnet w = true ->
      last_rx_idx (snd r) = u16 (last_rx_idx w + 1)
      /\ a_idx (avail q')
         = virtio_cpu_to_modern16 d
             (virtio_modern16_to_cpu d (a_idx (avail q)) + 1)
      /\ (forall k, k <> virtio_modern16_to_cpu d (a_idx (avail q)) mod vq_size q ->
            a_ring (avail q') k = a_ring (avail q) k)
      /\ desc q' = desc q /\ used q' = used q /\ vq_size q' = vq_size q
      /\ vq (vdev (snd (fst r))) VQ_TX = vq d VQ_TX
      /\ driver (snd (fst r)) = driver vnet).
Proof.
  intros _ r d q q'. subst q' q d r. split; intros P.
  - unfold emitted. rewrite (virtionet_receive_idle vnet buf maxlen w P).
    cbn [fst snd set_trace mem last_rx_idx trace].
    rewrite skipn_own_length. repeat split.
  - destruct (virtionet_receive_pending vnet buf maxlen w P)
      as (R & _ & _ & _ & L).
    cbv zeta in *. rewrite R, L.
    cbn [fst snd set_vdev vdev set_vq vq driver]. rewrite upd_same.
    cbn [set_avail_idx set_avail_ring set_avail avail a_ring a_idx desc used
         vq_size].
    repeat split.
    intros k K. rewrite upd_other by exact K. reflexivity.
Qed.

(** ** Further properties of the net driver: initialisation *)

(** The receive-queue loop touches nothing but the queue and the log. *)
Lemma rx_prepost_frame n : forall i d hs q w,
  hw (snd (rx_prepost n i d hs q w)) = hw w
  /\ mem (snd (rx_prepost n i d hs q w)) = mem w
  /\ cma_next (snd (rx_prepost n i d hs q w)) = cma_next w
  /\ cma_end (snd (rx_prepost n i d hs q w)) = cma_end w
  /\ heap_free (snd (rx_prepost n i d hs q w)) = heap_free w
  /\ net_hdr_size (snd (rx_prepost n i d hs q w)) = net_hdr_size w
  /\ last_rx_idx (snd (rx_prepost n i d hs q w)) = last_rx_idx w
  /\ last_tx_idx (snd (rx_prepost n i d hs q w)) = last_tx_idx w.
Proof.
  induction n as [| n IH]; intros i d hs q w.
  - cbn [rx_prepost]. run. repeat split.
  - cbn [rx_prepost]. run.
    match goal with
    | |- context [rx_prepost n ?i' d hs ?q' ?w'] =>
        destruct (IH i' d hs q' w') as (H1 & H2 & H3 & H4 & H5 & H6 & H7 & H8)
    end.
    run. repeat split; assumption.
Qed.

(** The loop that prepares the receive queue, run for [n] chains from
    chain 0: chain [k] is a device-writable header descriptor [2k] of
    [hdr_size] bytes linked to the device-writable data descriptor
    [2k + 1] of [BUFFER_ENTRY_SIZE] bytes right behind it, at offset
    [k * (BUFFER_ENTRY_SIZE + hdr_size)] of the pool; [avail.ring[k]] is
    [2k]; nothing else of the queue changes. *)
Lemma rx_prepost_chains n : forall i d hs q w,
  0 <= i -> i + Z.of_nat n <= 2^31 ->
  let q' := fst (rx_prepost n i d hs q w) in
  let base k := u64 (buf_mem q + u32 (k * u32 (BUFFER_ENTRY_SIZE + hs))) in
  (forall k, i <= k < i + Z.of_nat n ->
     desc q' (2 * k)
       = desc_entry (features d) (base k) hs
           (Z.lor VRING_DESC_F_NEXT VRING_DESC_F_WRITE) (2 * k + 1)
     /\ desc q' (2 * k + 1)
       = desc_entry (features d) (base k + hs) BUFFER_ENTRY_SIZE
           VRING_DESC_F_WRITE 0
     /\ a_ring (avail q') k = virtio_cpu_to_modern16 d (2 * k))
  /\ (forall j, j < 2 * i \/ 2 * (i + Z.of_nat n) <= j -> desc q' j = desc q j)
  /\ (forall k, k < i \/ i + Z.of_nat n <= k ->
        a_ring (avail q') k = a_ring (avail q) k)
  /\ vq_size q' = vq_size q /\ buf_mem q' = buf_mem q /\ vq_pa q' = vq_pa q
  /\ used q' = used q
  /\ a_idx (avail q') = a_idx (avail q) /\ a_flags (avail q') = a_flags (avail q).
Proof.
  induction n as [| n IH]; intros i d hs q w I N.
  - cbn [rx_prepost]. run. repeat split; intros; try reflexivity; lia.
  - cbn [rx_prepost]. run.
    assert (U : u32 (i * 2) = 2 * i).
    { unfold u32. rewrite Z.mod_small by lia. lia. }
    rewrite U.
    match goal with
    | |- context [rx_prepost n ?i' d hs ?q' ?w'] =>
        destruct (IH i' d hs q' w' ltac:(lia) ltac:(lia))
          as (C & D & R & S1 & S2 & S3 & S4 & S5 & S6)
    end.
    cbv zeta in *.
    cbn [set_avail_ring set_avail set_desc vq_size buf_mem vq_pa used avail desc
         a_idx a_flags a_ring] in *.
    repeat split; try assumption.
    + destruct (Z.eq_dec k i) as [-> | K].
      * rewrite D by lia. rewrite upd_other by lia. apply upd_same.
      * apply C. lia.
    + destruct (Z.eq_dec k i) as [-> | K].
      * rewrite D by lia. apply upd_same.
      * apply C. lia.
    + destruct (Z.eq_dec k i) as [-> | K].
      * rewrite R by lia. apply upd_same.
      * apply C. lia.
    + intros j J. rewrite D by lia. rewrite !upd_other by lia. reflexivity.
    + intros k K. rewrite R by lia. rewrite upd_other by lia. reflexivity.
Qed.

Lemma u8_config_read h i : u8 (config_read h i 1) = u8 (config h i).
Proof.
  unfold config_read. change (Z.to_nat 1) with 1%nat.
  cbn [config_bytes]. rewrite Z.mul_0_r, Z.add_0_r.
  unfold u8. apply Z.mod_mod. lia.
Qed.

Lemma half_queue_chains x : 0 + Z.of_nat (Z.to_nat (u16 x / 2)) <= 2^31.
Proof.
  pose proof (u16_range x) as R.
  assert (0 <= u16 x / 2) by (apply Z.div_pos; lia).
  assert (u16 x / 2 <= u16 x) by (apply Z.div_le_upper_bound; lia).
  rewrite Z2Nat.id by lia. lia.
Qed.

Lemma modern16_zero d : virtio_modern16_to_cpu d 0 = 0.
Proof.
  unfold virtio_modern16_to_cpu, le16_to_cpu, cpu_to_le16.
  destruct (is_version_1 (features d)); destruct host_big_endian; reflexivity.
Qed.

Lemma modern16_zero_eq d x : x = 0 -> virtio_modern16_to_cpu d x = 0.
Proof. intros ->. apply modern16_zero. Qed.

(** What a [virtionet_init] that starts from an instance that is not
    running and returns 0 leaves behind. *)
Lemma virtionet_init_ok vnet w r :
  running (driver vnet) = 0 ->
  virtionet_init vnet w = r ->
  fst (fst r) = 0 ->
  let v := snd (fst r) in
  let Q := u16 (queue_num_max (hw w) VQ_RX) in
  let hs := if is_version_1 (features (vdev vnet))
            then sizeof_virtio_net_hdr_v1 else sizeof_virtio_net_hdr in
  let rx := vq (vdev v) VQ_RX in
  let tx := vq (vdev v) VQ_TX in
  running (driver v) = 1
  /\ (forall i, 0 <= i < 6 -> mac_addr (driver v) i = u8 (config (hw w) i))
  /\ net_hdr_size (snd r) = hs
  /\ last_rx_idx (snd r) = 0
  /\ rx_pending v (snd r) = false
  /\ heap_free (snd r) = heap_free w
  /\ vq_size rx = Q
  /\ a_idx (avail rx) = virtio_cpu_to_modern16 (vdev v) (Q / 2)
  /\ a_flags (avail rx) = virtio_cpu_to_modern16 (vdev v) 0
  /\ a_idx (avail tx) = 0
  /\ a_flags (avail tx)
     = virtio_cpu_to_modern16 (vdev v) VRING_AVAIL_F_NO_INTERRUPT
  /\ (forall k, 0 <= k < Q / 2 ->
        desc rx (2 * k)
          = desc_entry (features (vdev v))
              (u64 (buf_mem rx + u32 (k * u32 (BUFFER_ENTRY_SIZE + hs)))) hs
              (Z.lor VRING_DESC_F_NEXT VRING_DESC_F_WRITE) (2 * k + 1)
        /\ desc rx (2 * k + 1)
          = desc_entry (features (vdev v))
              (u64 (buf_mem rx + u32 (k * u32 (BUFFER_ENTRY_SIZE + hs))) + hs)
              BUFFER_ENTRY_SIZE VRING_DESC_F_WRITE 0
        /\ a_ring (avail rx) k = virtio_cpu_to_modern16 (vdev v) (2 * k)).
Proof.
  unfold virtionet_init, virtionet_init_dev_error.
  intros R.
  assert (NR : nonzero (running (driver vnet)) = false) by (now rewrite R).
  rewrite !NR.
  run_drv. repeat (case_if; run_drv).
  all: try match goal with
           | H : true = false |- _ => discriminate H
           | H : false = true |- _ => discriminate H
           | H : (0 =? 0) = false |- _ => discriminate H
           end.
  all: try match goal with
           | |- context [rx_prepost ?n ?i ?d ?hs ?q ?W] =>
               pose proof (rx_prepost_frame n i d hs q W) as F;
               pose proof (rx_prepost_chains n i d hs q W) as C;
               destruct (rx_prepost n i d hs q W) as [q' w'];
               cbn [fst snd] in F, C
           end; run_drv.
  all: intros <-; cbn [fst snd]; intros Z0; try discriminate Z0.
  all: destruct F as (Fh & _ & _ & _ & Fheap & Fn & _).
  all: specialize (C (Z.le_refl 0) (half_queue_chains _));
       destruct C as (Cch & _ & _ & Cs & Cb & _ & Cu & _).
  all: rewrite ?Fh, ?Fn, ?Fheap; run_drv.
  all: rewrite !u8_config_read; cbn [config].
  all: split; [reflexivity |].
  all: split; [intros i Hi;
       assert (Hc : i = 0 \/ i = 1 \/ i = 2 \/ i = 3 \/ i = 4 \/ i = 5) by lia;
       destruct Hc as [-> | [-> | [-> | [-> | [-> | ->]]]]]; reflexivity |].
  all: split; [reflexivity |].
  all: split; [apply modern16_zero_eq; change (u_idx (used q') = 0);
               rewrite Cu; reflexivity |].
  all: split; [unfold rx_pending; apply negb_false_iff, Z.eqb_eq;
               transitivity 0; [| symmetry];
               apply modern16_zero_eq; change (u_idx (used q') = 0);
               rewrite Cu; reflexivity |].
  all: split; [reflexivity |].
  all: split; [change (vq_size q' = u16 (queue_num_max (hw w) VQ_RX));
               rewrite Cs; reflexivity |].
  all: split; [reflexivity |].
  all: split; [reflexivity |].
  all: split; [reflexivity |].
  all: split; [reflexivity |].
  all: intros k Hk.
  all: match type of Hk with
       | _ <= _ < ?q =>
           assert (Hk' : 0 <= k < 0 + Z.of_nat (Z.to_nat q))
             by (rewrite Z2Nat.id by lia; lia)
       end.
  all: destruct (Cch k Hk') as (D1 & D2 & D3).
  all: split; [| split].
  all: match goal with
       | |- desc _ (2 * ?j) = desc_entry ?f (u64 (_ + ?o)) ?h ?fl ?n =>
           change (desc q' (2 * j)
                   = desc_entry f (u64 (buf_mem q' + o)) h fl n);
           rewrite Cb; exact D1
       | |- desc _ (2 * ?j + 1)
            = desc_entry ?f (u64 (_ + ?o) + ?h') ?h ?fl ?n =>
           change (desc q' (2 * j + 1)
                   = desc_entry f (u64 (buf_mem q' + o) + h') h fl n);
           rewrite Cb; exact D2
       | |- a_ring _ ?j = ?x =>
           change (a_ring (avail q') j = x); exact D3
       end.
Qed.

(** A [virtionet_init] that starts from an instance that is not running
    and returns 0 leaves it running, with the six bytes of the MAC address
    read from the first six bytes of the configuration, the net header
    size chosen by the VERSION_1 bit the handle came with (12 bytes when
    set, 10 otherwise) and the receive cursor at the used index of the
    fresh receive queue, 0. *)
Theorem virtionet_init_instance vnet w :
  running (driver vnet) = 0 ->
  fst (fst (virtionet_init vnet w)) = 0 ->
  running (driver (snd (fst (virtionet_init vnet w)))) = 1
  /\ (forall i, 0 <= i < 6 ->
        mac_addr (driver (snd (fst (virtionet_init vnet w)))) i
        = u8 (config (hw w) i))
  /\ net_hdr_size (snd (virtionet_init vnet w))
     = (if is_version_1 (features (vdev vnet))
        then sizeof_virtio_net_hdr_v1 else sizeof_virtio_net_hdr)
  /\ last_rx_idx (snd (virtionet_init vnet w)) = 0.
Proof.
  intros R Z0.
  destruct (virtionet_init_ok vnet w _ R eq_refl Z0)
    as (H1 & H2 & H3 & H4 & _).
  repeat split; assumption.
Qed.

(** After a [virtionet_init] that starts from an instance that is not
    running and returns 0, the receive queue holds one chain per pair of
    descriptors: for every [k] below half the queue size, descriptor [2k]
    is the device-writable header of the net header size at the [k]-th
    slot of the receive buffers, linked to descriptor [2k+1], the
    device-writable data part of [BUFFER_ENTRY_SIZE] bytes right behind
    it, and the available ring names [2k] in slot [k]; [avail.idx] of the
    receive queue is half the queue size, that of the transmit queue 0,
    and the transmit queue asks for no interrupts. *)
Theorem virtionet_init_rx_queue vnet w :
  running (driver vnet) = 0 ->
  fst (fst (virtionet_init vnet w)) = 0 ->
  let d := vdev (snd (fst (virtionet_init vnet w))) in
  let Q := u16 (queue_num_max (hw w) VQ_RX) in
  let hs := if is_version_1 (features (vdev vnet))
            then sizeof_virtio_net_hdr_v1 else sizeof_virtio_net_hdr in
  let slot k := u64 (buf_mem (vq d VQ_RX)
                     + u32 (k * u32 (BUFFER_ENTRY_SIZE + hs))) in
  vq_size (vq d VQ_RX) = Q
  /\ a_idx (avail (vq d VQ_RX)) = virtio_cpu_to_modern16 d (Q / 2)
  /\ a_flags (avail (vq d VQ_RX)) = virtio_cpu_to_modern16 d 0
  /\ a_idx (avail (vq d VQ_TX)) = 0
  /\ a_flags (avail (vq d VQ_TX))
     = virtio_cpu_to_modern16 d VRING_AVAIL_F_NO_INTERRUPT
  /\ (forall k, 0 <= k < Q / 2 ->
        desc (vq d VQ_RX) (2 * k)
          = desc_entry (features d) (slot k) hs
              (Z.lor VRING_DESC_F_NEXT VRING_DESC_F_WRITE) (2 * k + 1)
        /\ desc (vq d VQ_RX) (2 * k + 1)
          = desc_entry (features d) (slot k + hs) BUFFER_ENTRY_SIZE
              VRING_DESC_F_WRITE 0
        /\ a_ring (avail (vq d VQ_RX)) k = virtio_cpu_to_modern16 d (2 * k)).
Proof.
  intros R Z0.
  destruct (virtionet_init_ok vnet w _ R eq_refl Z0)
    as (_ & _ & _ & _ & _ & _ & H6 & H7 & H8 & H9 & H10 & H11).
  cbv zeta. repeat split; try assumption; apply H11; assumption.
Qed.

(** Right after a [virtionet_init] that started from an instance that is
    not running and returned 0, the receive cursor equals [used.idx] of
    the receive queue: nothing is pending, [virtionet_receive_check]
    returns 0 and a [virtionet_receive] returns 0 after one read of
    [used.idx], leaving the instance as it is. *)
Theorem virtionet_init_nothing_pending vnet w buf maxlen :
  running (driver vnet) = 0 ->
  fst (fst (virtionet_init vnet w)) = 0 ->
  let v := snd (fst (virtionet_init vnet w)) in
  let w' := snd (virtionet_init vnet w) in
  last_rx_idx w'
    = virtio_modern16_to_cpu (vdev v) (u_idx (used (vq (vdev v) VQ_RX)))
  /\ fst (virtionet_receive_check v w') = 0
  /\ fst (virtionet_receive v buf maxlen w') = (0, v)
  /\ emitted (virtionet_receive v buf maxlen) w' = [UsedIdxRead].
Proof.
  intros R Z0.
  destruct (virtionet_init_ok vnet w _ R eq_refl Z0)
    as (_ & _ & _ & _ & P & _).
  cbv zeta. unfold emitted.
  rewrite (virtionet_receive_idle _ buf maxlen _ P).
  cbn [fst snd set_trace trace]. rewrite skipn_own_length.
  assert (E : last_rx_idx (snd (virtionet_init vnet w))
              = virtio_modern16_to_cpu
                  (vdev (snd (fst (virtionet_init vnet w))))
                  (u_idx (used (vq (vdev (snd (fst (virtionet_init vnet w))))
                                   VQ_RX)))).
  { unfold rx_pending in P. apply negb_false_iff, Z.eqb_eq in P. exact P. }
  split; [exact E |]. split; [| split; reflexivity].
  revert E. unfold virtionet_receive_check. run.
  intros E. apply Z.eqb_eq in E. rewrite E. reflexivity.
Qed.

(** What a [virtionet_init] that starts from an instance that is not
    running and does not return 0 leaves behind. *)
Lemma virtionet_init_fails vnet w r :
  running (driver vnet) = 0 ->
  virtionet_init vnet w = r ->
  fst (fst r) <> 0 ->
  fst (fst r) = -1
  /\ running (driver (snd (fst r))) = 0
  /\ heap_free (snd r) = heap_free w
  /\ Z.land (status (hw (snd r))) VIRTIO_STAT_FAILED <> 0
  /\ Z.land (last (status_writes (skipn (length (trace w)) (trace (snd r)))) 0)
            VIRTIO_STAT_FAILED <> 0.
Proof.
  unfold virtionet_init, virtionet_init_dev_error.
  intros R.
  assert (NR : nonzero (running (driver vnet)) = false) by (now rewrite R).
  rewrite !NR.
  run_drv. repeat (case_if; run_drv).
  all: try match goal with
           | H : true = false |- _ => discriminate H
           | H : false = true |- _ => discriminate H
           | H : (0 =? 0) = false |- _ => discriminate H
           end.
  all: try match goal with
           | |- context [rx_prepost ?n ?i ?d ?hs ?q ?W] =>
               destruct (rx_prepost n i d hs q W) as [q' w']; run_drv
           end.
  all: intros <-; cbn [fst snd]; intros N;
       try (exfalso; apply N; reflexivity).
  all: run_drv; flat_trace; rewrite skipn_own_length.
  all: cbn [status_writes last].
  all: repeat split;
       [exact R | apply failed_bit_latched | apply failed_bit_written].
Qed.

(** A [virtionet_init] that starts from an instance that is not running
    and fails returns -1, leaves the instance not running, and the last
    value it wrote to the status register carries the FAILED bit, which
    the register then holds. *)
Theorem virtionet_init_failure vnet w :
  running (driver vnet) = 0 ->
  fst (fst (virtionet_init vnet w)) <> 0 ->
  fst (fst (virtionet_init vnet w)) = -1
  /\ running (driver (snd (fst (virtionet_init vnet w)))) = 0
  /\ Z.land (last (status_writes (emitted (virtionet_init vnet) w)) 0)
            VIRTIO_STAT_FAILED <> 0
  /\ Z.land (status (hw (snd (virtionet_init vnet w)))) VIRTIO_STAT_FAILED
     <> 0.
Proof.
  intros R N.
  destruct (virtionet_init_fails vnet w _ R eq_refl N)
    as (H1 & H2 & _ & H4 & H5).
  unfold emitted. repeat split; assumption.
Qed.

(** ** Shutting down *)

(** [virtionet_term] on a running instance returns 0 after writing FAILED
    and then 0 to the status register, which ends at 0; the instance is
    left not running, with the buffer pointers of both queues cleared and
    both queues withdrawn from the device.  The driver's heap is not
    touched. *)
Theorem virtionet_term_running vnet w :
  running (driver vnet) <> 0 ->
  let r := virtionet_term vnet w in
  fst (fst r) = 0
  /\ running (driver (snd (fst r))) = 0
  /\ buf_mem (vq (vdev (snd (fst r))) VQ_RX) = 0
  /\ buf_mem (vq (vdev (snd (fst r))) VQ_TX) = 0
  /\ status_writes (emitted (virtionet_term vnet) w) = [VIRTIO_STAT_FAILED; 0]
  /\ status (hw (snd r)) = 0
  /\ queue_ready (hw (snd r)) VQ_RX = false
  /\ queue_ready (hw (snd r)) VQ_TX = false
  /\ heap_free (snd r) = heap_free w.
Proof.
  intros R. apply Z.eqb_neq in R.
  unfold emitted, virtionet_term. rewrite R. run_drv.
  flat_trace. rewrite skipn_own_length.
  repeat split.
Qed.

(** ** Opening and closing *)

(** [virtionet_open] without a device handle returns NULL without
    touching the device, and gives the instance back to the heap. *)
Theorem virtionet_open_null w :
  fst (virtionet_open None w) = None
  /\ trace (snd (virtionet_open None w)) = trace w
  /\ hw (snd (virtionet_open None w)) = hw w
  /\ heap_free (snd (virtionet_open None w)) = heap_free w.
Proof.
  unfold virtionet_open, virtionet_init_mmio. run_drv.
  case_if; run_drv; repeat split; lia.
Qed.

(** What [virtionet_open] leaves of the heap: the instance stays
    allocated exactly when one is returned. *)
Lemma virtionet_open_heap dev w :
  heap_free (snd (virtionet_open dev w))
  = match fst (virtionet_open dev w) with
    | Some _ => heap_free w - sizeof_virtio_net
    | None => heap_free w
    end
  /\ (forall v, fst (virtionet_open dev w) = Some v ->
        running (driver v) = 1).
Proof.
  destruct dev as [d |].
  2: { unfold virtionet_open, virtionet_init_mmio. run_drv.
       case_if; run_drv; (split; [lia | discriminate]). }
  unfold virtionet_open, virtionet_init_mmio. run_drv.
  case_if; run_drv; [| split; [reflexivity | discriminate]].
  match goal with
  | |- context [virtionet_init ?n ?W] =>
      pose proof (virtionet_init_ok n W _ eq_refl eq_refl) as OK;
      pose proof (virtionet_init_fails n W _ eq_refl eq_refl) as KO;
      destruct (virtionet_init n W) as [[r v] w']
  end.
  cbn [fst snd] in *. unfold nonzero.
  destruct (r =? 0) eqn:Z0; cbn [negb]; run_drv.
  - apply Z.eqb_eq in Z0.
    destruct (OK Z0) as (Run & _ & _ & _ & _ & Heap & _).
    rewrite Heap. run_drv. split; [reflexivity |].
    intros v' E. injection E as <-. exact Run.
  - apply Z.eqb_neq in Z0.
    destruct (KO Z0) as (_ & _ & Heap & _).
    rewrite Heap. run_drv. split; [lia | discriminate].
Qed.

(** A [virtionet_open] that returns NULL has given the instance back:
    the heap is as large as before the call. *)
Theorem virtionet_open_failure_frees dev w :
  fst (virtionet_open dev w) = None ->
  heap_free (snd (virtionet_open dev w)) = heap_free w.
Proof.
  intros N. destruct (virtionet_open_heap dev w) as (H & _).
  rewrite N in H. exact H.
Qed.

(** [virtionet_close] of the instance a [virtionet_open] returned gives
    back to the heap what the open took, and leaves the device reset:
    the status register reads 0 and the receive queue is withdrawn. *)
Theorem virtionet_open_close dev w v :
  fst (virtionet_open dev w) = Some v ->
  let w' := snd (virtionet_close (Some v) (snd (virtionet_open dev w))) in
  heap_free w' = heap_free w
  /\ status (hw w') = 0
  /\ queue_ready (hw w') VQ_RX = false.
Proof.
  intros S. destruct (virtionet_open_heap dev w) as (H & Run).
  rewrite S in H. specialize (Run v S).
  cbv zeta. unfold virtionet_close, virtionet_term. rewrite Run.
  change (1 =? 0) with false. run_drv.
  rewrite H. repeat split. lia.
Qed.

End Driver.

(** ** The theorems at concrete devices

    The host is little-endian, [BUFFER_ENTRY_SIZE] is 1526, the net
    instance takes 64 bytes and the two static net headers sit at 256 and
    272. *)

(** Legacy block initialisation with 512-byte sectors returns 512. *)
Example virtioblk_init_legacy_512 :
  fst (fst (virtioblk_init ex_blk_dev ex_blk_world)) = 512.
Proof. vm_compute. reflexivity. Qed.

(** A modern device that offers BLK_SIZE with blocks of 4096 bytes:
    [virtioblk_init] returns 4096 and FEATURES_OK survives. *)
Example virtioblk_init_modern_4096 :
  fst (fst (virtioblk_init (ex_dev VIRTIO_F_VERSION_1 8 0)
              (ex_world (ex_device (Z.lor VIRTIO_F_VERSION_1 VIRTIO_BLK_F_BLK_SIZE)
                           (ex_blk_config 2048 4096) 8)))) = 4096
  /\ status (hw (snd (virtioblk_init (ex_dev VIRTIO_F_VERSION_1 8 0)
              (ex_world (ex_device (Z.lor VIRTIO_F_VERSION_1 VIRTIO_BLK_F_BLK_SIZE)
                           (ex_blk_config 2048 4096) 8))))) = 15.
Proof. vm_compute. split; reflexivity. Qed.

(** Capacity 10, request for 5 blocks from block 8: rejected, nothing
    written. *)
Example virtioblk_transfer_out_of_range :
  virtioblk_transfer false ex_blk_dev ex_data 8192 8 5 VIRTIO_BLK_T_IN ex_small_world
  = ((0, ex_blk_dev, ex_data),
     set_trace ex_small_world [RegRead (ConfigReg blk_cfg_capacity)]).
Proof. reflexivity. Qed.

(** Opening the legacy net device: the instance shows the MAC address of
    the configuration, the receive queue holds 4 chains and its
    [avail.idx] is 4. *)
Example virtionet_open_mac :
  option_map (fun n => map (mac_addr (driver n)) [0; 1; 2; 3; 4; 5])
    (fst (virtionet_open false 1526 64 (Some ex_net_dev) ex_net_world))
    = Some [2; 202; 254; 186; 190; 1]
  /\ option_map (fun n => a_idx (avail (vq (vdev n) VQ_RX)))
       (fst (virtionet_open false 1526 64 (Some ex_net_dev) ex_net_world))
     = Some 4
  /\ option_map (fun n => map (a_ring (avail (vq (vdev n) VQ_RX))) [0; 1; 2; 3])
       (fst (virtionet_open false 1526 64 (Some ex_net_dev) ex_net_world))
     = Some [0; 2; 4; 6].
Proof. vm_compute. repeat split; reflexivity. Qed.

(** Transmitting 1500 bytes on the running instance returns 1500,
    advances [avail.idx] of TX by one and notifies TX. *)
Example virtionet_xmit_1500 :
  fst (fst (virtionet_xmit false 1526 256 272 ex_vnet 9000 1500 ex_rx_world)) = 1500
  /\ a_idx (avail (vq (vdev (snd (fst
        (virtionet_xmit false 1526 256 272 ex_vnet 9000 1500 ex_rx_world)))) VQ_TX))
     = 1
  /\ reg_writes (emitted (virtionet_xmit false 1526 256 272 ex_vnet 9000 1500)
                   ex_rx_world) = [RegWrite QueueNotifyReg VQ_TX].
Proof. vm_compute. repeat split; reflexivity. Qed.

(** Receiving the frame of 64 bytes the device has used: 64 is returned
    and the cursor advances by one. *)
Example virtionet_receive_64 :
  fst (fst (virtionet_receive false ex_vnet 9000 2048 ex_rx_world)) = 64
  /\ last_rx_idx (snd (virtionet_receive false ex_vnet 9000 2048 ex_rx_world)) = 1.
Proof. vm_compute. split; reflexivity. Qed.

Lemma virtioblk_transfer_single_barrier_witness :
  blk_accepts ex_blk_world 0 1 = true
  /\ barrier_before_idx
       (emitted (virtioblk_transfer false ex_blk_dev ex_data 8192 0 1 VIRTIO_BLK_T_IN)
          ex_blk_world) = true
  /\ barrier_before_notify
       (emitted (virtioblk_transfer false ex_blk_dev ex_data 8192 0 1 VIRTIO_BLK_T_IN)
          ex_blk_world) = false.
Proof.
  assert (A : blk_accepts ex_blk_world 0 1 = true) by (vm_compute; reflexivity).
  split; [exact A |].
  exact (virtioblk_transfer_single_barrier false ex_blk_dev ex_data 8192 0 1
           VIRTIO_BLK_T_IN ex_blk_world A).
Defined.

(** C3.  The claim: on a legacy device no status value written during
    a successful initialisation, by the block or by the net driver, has
    FEATURES_OK (8) set, the trajectory being 0, 1, 3, 7.  The legacy net
    device with queues of 8 entries is opened successfully with the status
    writes 0, 1, 3, 15: [virtionet_init] ORs FEATURES_OK into its last
    status whether the device is modern or not, while [virtioblk_init] on
    the same device writes 0, 1, 3, 7. *)
Theorem legacy_net_init_sets_features_ok :
  is_version_1 (features ex_net_dev) = false
  /\ fst (virtionet_open false 1526 64 (Some ex_net_dev) ex_net_world) <> None
  /\ status_writes
       (emitted (virtionet_open false 1526 64 (Some ex_net_dev)) ex_net_world)
       = [0; 1; 3; 15]
  /\ Z.land 15 VIRTIO_STAT_FEATURES_OK = 8
  /\ status_writes (emitted (virtioblk_init ex_net_dev) ex_net_world)
       = [0; 1; 3; 7].
Proof.
  split; [reflexivity |]. split; [vm_compute; discriminate |].
  split; [vm_compute; reflexivity |].
  split; vm_compute; reflexivity.
Qed.

Lemma legacy_init_status_trajectory_witness :
  is_version_1 (features ex_net_dev) = false
  /\ Z.land (status (hw (snd (virtioblk_init ex_net_dev ex_net_world))))
            VIRTIO_STAT_FAILED = 0
  /\ status_writes (emitted (virtioblk_init ex_net_dev) ex_net_world)
       = [0; 1; 3; 7]
  /\ fst (virtionet_open false 1526 64 (Some ex_net_dev) ex_net_world) <> None
  /\ status_writes
       (emitted (virtionet_open false 1526 64 (Some ex_net_dev)) ex_net_world)
       = [0; 1; 3; 15].
Proof.
  assert (V : is_version_1 (features ex_net_dev) = false) by reflexivity.
  assert (F : Z.land (status (hw (snd (virtioblk_init ex_net_dev ex_net_world))))
                     VIRTIO_STAT_FAILED = 0) by (vm_compute; reflexivity).
  assert (O : fst (virtionet_open false 1526 64 (Some ex_net_dev) ex_net_world)
              <> None) by (vm_compute; discriminate).
  destruct (legacy_init_status_trajectory false 1526 64 ex_net_dev ex_net_world V)
    as [B N].
  exact (conj V (conj F (conj (B F) (conj O (N O))))).
Defined.

(** The used id is 2: the entry put back on the ring is 2, not 1. *)
Lemma virtionet_receive_reposts_used_id :
  rx_pending false ex_vnet ex_rx_world = true
  /\ rx_id_raw false ex_vnet ex_rx_world = 2
  /\ ~ (a_ring (avail (vq (vdev (snd (fst
          (virtionet_receive false ex_vnet 9000 2048 ex_rx_world)))) VQ_RX)) 4
        = rx_id_raw false ex_vnet ex_rx_world - 1).
Proof.
  split; [vm_compute; reflexivity |]. split; [vm_compute; reflexivity |].
  vm_compute. discriminate.
Qed.

Lemma virtionet_receive_repost_witness :
  rx_pending false ex_vnet ex_rx_world = true
  /\ fst (fst (virtionet_receive false ex_vnet 9000 2048 ex_rx_world)) = 64
  /\ read_bytes (mem (snd (virtionet_receive false ex_vnet 9000 2048 ex_rx_world)))
       9000 4 = [62; 63; 64; 65]
  /\ a_ring (avail (vq (vdev (snd (fst
        (virtionet_receive false ex_vnet 9000 2048 ex_rx_world)))) VQ_RX)) 4 = 2.
Proof.
  assert (P : rx_pending false ex_vnet ex_rx_world = true)
    by (vm_compute; reflexivity).
  split; [exact P |].
  destruct (virtionet_receive_repost false ex_vnet 9000 2048 ex_rx_world P)
    as (R & _ & A & _).
  split; [exact R |]. split; [vm_compute; reflexivity | exact A].
Defined.

(** Blocks of 1000 bytes: [virtioblk_init] returns 1000 and the device is
    not FAILED. *)
Lemma virtioblk_init_accepts_unaligned :
  Z.rem (blk_blk_size ex_odd_world) DEFAULT_SECTOR_SIZE <> 0
  /\ ~ (Z.land (status (hw (snd (virtioblk_init ex_blk_dev ex_odd_world))))
               VIRTIO_STAT_FAILED <> 0)
  /\ fst (fst (virtioblk_init ex_blk_dev ex_odd_world)) = 1000.
Proof.
  split; [vm_compute; discriminate |].
  split; [vm_compute; intros H; apply H; reflexivity | vm_compute; reflexivity].
Qed.

Lemma virtioblk_init_sector_size_witness :
  Z.land (status (hw (snd (virtioblk_init ex_blk_dev ex_odd_world))))
         VIRTIO_STAT_FAILED = 0
  /\ fst (fst (virtioblk_init ex_blk_dev ex_odd_world)) = 1000
  /\ blk_size_aligned ex_odd_world = false
  /\ fst (virtioblk_transfer false ex_blk_dev ex_data 8192 0 1 VIRTIO_BLK_T_IN
            ex_odd_world) = (0, ex_blk_dev, ex_data)
  /\ hw (snd (virtioblk_transfer false ex_blk_dev ex_data 8192 0 1 VIRTIO_BLK_T_IN
                ex_odd_world)) = hw ex_odd_world
  /\ status (hw (snd (virtioblk_init ex_blk_dev
                 (set_hw ex_blk_world
                    (set_config (hw ex_blk_world) (ex_blk_config 2048 1000))))))
     = status (hw (snd (virtioblk_init ex_blk_dev ex_blk_world))).
Proof.
  assert (F : Z.land (status (hw (snd (virtioblk_init ex_blk_dev ex_odd_world))))
                     VIRTIO_STAT_FAILED = 0) by (vm_compute; reflexivity).
  assert (A : blk_size_aligned ex_odd_world = false) by (vm_compute; reflexivity).
  destruct (virtioblk_init_sector_size false ex_blk_dev ex_odd_world)
    as (_ & I & T).
  destruct (virtioblk_init_sector_size false ex_blk_dev ex_blk_world)
    as (Cfg & _ & _).
  destruct (T ex_data 8192 0 1 VIRTIO_BLK_T_IN A) as (R & H & _).
  exact (conj F (conj (I F) (conj A (conj R (conj H
           (proj1 (Cfg (ex_blk_config 2048 1000)))))))).
Defined.

(** A FLUSH request: the data descriptor is device-writable, its flags
    are NEXT|WRITE and not NEXT. *)
Lemma virtioblk_transfer_flush_flags :
  blk_accepts ex_blk_world 0 1 = true
  /\ ~ (d_flags (desc (vq (snd (fst (fst
          (virtioblk_transfer false ex_blk_dev ex_data 8192 0 1
             VIRTIO_BLK_T_FLUSH ex_blk_world)))) 0)
          (blk_head false ex_blk_dev + 1))
        = Z.lor VRING_DESC_F_NEXT
            (if VIRTIO_BLK_T_FLUSH =? VIRTIO_BLK_T_IN
             then VRING_DESC_F_WRITE else 0)).
Proof.
  split; [vm_compute; reflexivity |]. vm_compute. discriminate.
Qed.

Lemma virtioblk_transfer_data_descriptor_witness :
  blk_accepts ex_blk_world 0 1 = true
  /\ (VIRTIO_BLK_T_FLUSH = VIRTIO_BLK_T_IN \/ VIRTIO_BLK_T_FLUSH = VIRTIO_BLK_T_OUT
      \/ VIRTIO_BLK_T_FLUSH = VIRTIO_BLK_T_FLUSH)
  /\ d_len (desc (vq (snd (fst (fst
        (virtioblk_transfer false ex_blk_dev ex_data 8192 0 1
           VIRTIO_BLK_T_FLUSH ex_blk_world)))) 0) 1) = 512
  /\ d_flags (desc (vq (snd (fst (fst
        (virtioblk_transfer false ex_blk_dev ex_data 8192 0 1
           VIRTIO_BLK_T_FLUSH ex_blk_world)))) 0) 1) = 3
  /\ d_next (desc (vq (snd (fst (fst
        (virtioblk_transfer false ex_blk_dev ex_data 8192 0 1
           VIRTIO_BLK_T_FLUSH ex_blk_world)))) 0) 1) = 2.
Proof.
  assert (A : blk_accepts ex_blk_world 0 1 = true) by (vm_compute; reflexivity).
  assert (T : VIRTIO_BLK_T_FLUSH = VIRTIO_BLK_T_IN
              \/ VIRTIO_BLK_T_FLUSH = VIRTIO_BLK_T_OUT
              \/ VIRTIO_BLK_T_FLUSH = VIRTIO_BLK_T_FLUSH)
    by (right; right; reflexivity).
  destruct (virtioblk_transfer_data_descriptor false ex_blk_dev ex_data 8192 0 1
              VIRTIO_BLK_T_FLUSH ex_blk_world A T) as (_ & L & F & N).
  exact (conj A (conj T (conj L (conj F N)))).
Defined.

Lemma virtionet_read_write_null_witness :
  (Some ex_vnet = None \/ 0 = 0)
  /\ virtionet_read false (Some ex_vnet) 0 2048 ex_rx_world
       = ((-1, Some ex_vnet), ex_rx_world)
  /\ virtionet_write false 1526 256 272 (Some ex_vnet) 0 2048 ex_rx_world
       = ((-1, Some ex_vnet), ex_rx_world).
Proof.
  assert (N : Some ex_vnet = None \/ 0 = 0) by (right; reflexivity).
  split; [exact N |].
  exact (virtionet_read_write_null false 1526 256 272 (Some ex_vnet) 0 2048
           ex_rx_world N).
Defined.



(** ** The further properties at concrete devices *)

(** An accepted request is notified; one beyond the capacity of 10 blocks
    is not. *)
Lemma virtioblk_transfer_returns_zero_witness :
  0 < vq_size (vq ex_blk_dev 0)
  /\ fst (fst (fst (virtioblk_transfer false ex_blk_dev ex_data 8192 0 1
                      VIRTIO_BLK_T_IN ex_blk_world))) = 0
  /\ reg_writes (emitted (virtioblk_transfer false ex_blk_dev ex_data 8192 0 1
                            VIRTIO_BLK_T_IN) ex_blk_world)
     = [RegWrite QueueNotifyReg 0]
  /\ reg_writes (emitted (virtioblk_transfer false ex_blk_dev ex_data 8192 8 5
                            VIRTIO_BLK_T_IN) ex_small_world)
     = [].
Proof.
  assert (Q : 0 < vq_size (vq ex_blk_dev 0)) by (vm_compute; reflexivity).
  destruct (virtioblk_transfer_returns_zero false ex_blk_dev ex_data 8192 0 1
              VIRTIO_BLK_T_IN ex_blk_world Q) as (R & _ & N).
  destruct (virtioblk_transfer_returns_zero false ex_blk_dev ex_data 8192 8 5
              VIRTIO_BLK_T_IN ex_small_world Q) as (_ & _ & N').
  exact (conj Q (conj R (conj N N'))).
Defined.

Lemma virtioblk_transfer_chain_ends_witness :
  0 < vq_size (vq ex_blk_dev 0)
  /\ blk_accepts ex_blk_world 0 1 = true
  /\ desc (vq (snd (fst (fst
        (virtioblk_transfer false ex_blk_dev ex_data 8192 0 1 VIRTIO_BLK_T_IN
           ex_blk_world)))) 0) (blk_head false ex_blk_dev + 2)
     = mk_desc 4112 1 2 0.
Proof.
  assert (Q : 0 < vq_size (vq ex_blk_dev 0)) by (vm_compute; reflexivity).
  assert (A : blk_accepts ex_blk_world 0 1 = true) by (vm_compute; reflexivity).
  destruct (virtioblk_transfer_chain_ends false ex_blk_dev ex_data 8192 0 1
              VIRTIO_BLK_T_IN ex_blk_world Q A) as (_ & S & _).
  exact (conj Q (conj A S)).
Defined.

(** A queue of 9 entries whose [avail.idx] is 4: the chain starts at
    descriptor 3. *)
Lemma virtioblk_transfer_chain_in_range_witness :
  0 < vq_size (vq (ex_dev 0 9 4) 0)
  /\ vq_size (vq (ex_dev 0 9 4) 0) mod 3 = 0
  /\ 0 <= blk_head false (ex_dev 0 9 4)
  /\ blk_head false (ex_dev 0 9 4) + 2 < vq_size (vq (ex_dev 0 9 4) 0).
Proof.
  assert (Q : 0 < vq_size (vq (ex_dev 0 9 4) 0)) by (vm_compute; reflexivity).
  assert (M : vq_size (vq (ex_dev 0 9 4) 0) mod 3 = 0) by (vm_compute; reflexivity).
  destruct (virtioblk_transfer_chain_in_range false (ex_dev 0 9 4) Q M)
    as (L & H & _).
  exact (conj Q (conj M (conj L H))).
Defined.

(** A device without queues fails the initialisation; the block device
    with a queue of 8 entries does not. *)
Lemma virtioblk_init_failure_witness :
  Z.land (status (hw (snd (virtioblk_init ex_blk_dev
            (ex_world (ex_device 0 (ex_blk_config 2048 512) 0))))))
         VIRTIO_STAT_FAILED <> 0
  /\ fst (fst (virtioblk_init ex_blk_dev
            (ex_world (ex_device 0 (ex_blk_config 2048 512) 0)))) = 0
  /\ Z.land (status (hw (snd (virtioblk_init ex_blk_dev ex_blk_world))))
            VIRTIO_STAT_FAILED = 0
  /\ Z.land (last (status_writes (emitted (virtioblk_init ex_blk_dev)
                                    ex_blk_world)) 0)
            VIRTIO_STAT_DRIVER_OK <> 0.
Proof.
  assert (F : Z.land (status (hw (snd (virtioblk_init ex_blk_dev
                 (ex_world (ex_device 0 (ex_blk_config 2048 512) 0))))))
                VIRTIO_STAT_FAILED <> 0) by (vm_compute; discriminate).
  assert (S : Z.land (status (hw (snd (virtioblk_init ex_blk_dev ex_blk_world))))
                VIRTIO_STAT_FAILED = 0) by (vm_compute; reflexivity).
  destruct (virtioblk_init_failure ex_blk_dev
              (ex_world (ex_device 0 (ex_blk_config 2048 512) 0))) as (KO & _).
  destruct (virtioblk_init_failure ex_blk_dev ex_blk_world) as (_ & OK).
  exact (conj F (conj (proj1 (KO F)) (conj S (OK S)))).
Defined.

(** A packet of 2000 bytes is refused, one of 1500 bytes is sent. *)
Lemma virtionet_write_length_witness :
  9000 <> 0
  /\ 2 <= vq_size (vq (vdev ex_vnet) VQ_TX)
  /\ 1526 < 2000
  /\ virtionet_write false 1526 256 272 (Some ex_vnet) 9000 2000 ex_rx_world
     = (0, Some ex_vnet, ex_rx_world)
  /\ 0 <= 1500 <= 1526
  /\ fst (fst (virtionet_write false 1526 256 272 (Some ex_vnet) 9000 1500
                 ex_rx_world)) = 1500.
Proof.
  assert (B : 9000 <> 0) by discriminate.
  assert (Q : 2 <= vq_size (vq (vdev ex_vnet) VQ_TX))
    by (vm_compute; discriminate).
  assert (L : 1526 < 2000) by reflexivity.
  assert (S : 0 <= 1500 <= 1526) by (split; discriminate).
  destruct (virtionet_write_length false 1526 256 272 ex_vnet 9000 2000
              ex_rx_world B Q) as (Long & _).
  destruct (virtionet_write_length false 1526 256 272 ex_vnet 9000 1500
              ex_rx_world B Q) as (_ & Short).
  exact (conj B (conj Q (conj L (conj (Long L) (conj S (proj1 (Short S))))))).
Defined.

Lemma virtionet_xmit_payload_witness :
  2 <= vq_size (vq (vdev ex_vnet) VQ_TX)
  /\ 0 <= 1500 <= 1526
  /\ read_bytes (mem (snd (virtionet_xmit false 1526 256 272 ex_vnet 9000 1500
                             ex_rx_world)))
       (tx_buf_addr false 1526 ex_vnet) (Z.to_nat (u64 1500))
     = read_bytes (mem ex_rx_world) 9000 (Z.to_nat (u64 1500)).
Proof.
  assert (Q : 2 <= vq_size (vq (vdev ex_vnet) VQ_TX))
    by (vm_compute; discriminate).
  assert (L : 0 <= 1500 <= 1526) by (split; discriminate).
  destruct (virtionet_xmit_payload false 1526 256 272 ex_vnet 9000 1500
              ex_rx_world Q L) as (_ & _ & P).
  exact (conj Q (conj L P)).
Defined.


Lemma virtionet_xmit_chain_in_range_witness :
  0 < vq_size (vq (vdev ex_vnet) VQ_TX)
  /\ vq_size (vq (vdev ex_vnet) VQ_TX) mod 2 = 0
  /\ tx_head false ex_vnet + 1 < vq_size (vq (vdev ex_vnet) VQ_TX)
  /\ tx_head false ex_vnet mod 2 = 0.
Proof.
  assert (Q : 0 < vq_size (vq (vdev ex_vnet) VQ_TX)) by (vm_compute; reflexivity).
  assert (M : vq_size (vq (vdev ex_vnet) VQ_TX) mod 2 = 0)
    by (vm_compute; reflexivity).
  destruct (virtionet_xmit_chain_in_range false ex_vnet Q M) as (_ & H & E).
  exact (conj Q (conj M (conj H E))).
Defined.

(** The used entry under the cursor is 74 bytes long. *)
Lemma virtionet_receive_check_peeks_witness :
  0 < vq_size (vq (vdev ex_vnet) VQ_RX)
  /\ fst (virtionet_receive_check false ex_vnet ex_rx_world) = 74
  /\ last_rx_idx (snd (virtionet_receive_check false ex_vnet ex_rx_world))
     = last_rx_idx ex_rx_world.
Proof.
  assert (Q : 0 < vq_size (vq (vdev ex_vnet) VQ_RX))
    by (vm_compute; reflexivity).
  destruct (virtionet_receive_check_peeks false ex_vnet ex_rx_world Q)
    as (R & _ & _ & L & _).
  exact (conj Q (conj R L)).
Defined.

(** The used entry of 74 bytes and a buffer of 16: 16 bytes are handed
    out. *)
Lemma virtionet_receive_bounded_witness :
  0 < vq_size (vq (vdev ex_vnet) VQ_RX)
  /\ 0 <= 16 < 2 ^ 31
  /\ rx_pending false ex_vnet ex_rx_world = true
  /\ 0 <= fst (fst (virtionet_receive false ex_vnet 9000 16 ex_rx_world)) <= 16
  /\ fst (fst (virtionet_receive false ex_vnet 9000 16 ex_rx_world))
     = Z.min (u32 (fst (virtionet_receive_check false ex_vnet ex_rx_world)
                   - net_hdr_size ex_rx_world)) 16
  /\ copies (emitted (virtionet_receive false ex_vnet 9000 16) ex_rx_world)
     = [(9000, 6086, 16)]
  /\ rx_pending false ex_vnet (set_last_rx_idx ex_rx_world 1) = false
  /\ copies (emitted (virtionet_receive false ex_vnet 9000 16)
               (set_last_rx_idx ex_rx_world 1)) = [].
Proof.
  assert (Q : 0 < vq_size (vq (vdev ex_vnet) VQ_RX))
    by (vm_compute; reflexivity).
  assert (B : 0 <= 16 < 2 ^ 31) by (split; [discriminate | reflexivity]).
  assert (P : rx_pending false ex_vnet ex_rx_world = true)
    by (vm_compute; reflexivity).
  assert (N : rx_pending false ex_vnet (set_last_rx_idx ex_rx_world 1) = false)
    by (vm_compute; reflexivity).
  destruct (virtionet_receive_bounded false ex_vnet 9000 16 ex_rx_world Q B)
    as (R & M & _).
  destruct (virtionet_receive_bounded false ex_vnet 9000 16
              (set_last_rx_idx ex_rx_world 1) Q B) as (_ & _ & I).
  destruct (M P) as (M1 & M2).
  exact (conj Q (conj B (conj P (conj R (conj M1 (conj M2 (conj N (I N)))))))).
Defined.

(** With the cursor at 0 one entry is pending; with the cursor at 1
    none is. *)
Lemma virtionet_receive_consumes_one_witness :
  0 < vq_size (vq (vdev ex_vnet) VQ_RX)
  /\ rx_pending false ex_vnet ex_rx_world = true
  /\ last_rx_idx (snd (virtionet_receive false ex_vnet 9000 2048 ex_rx_world))
     = u16 (last_rx_idx ex_rx_world + 1)
  /\ rx_pending false ex_vnet (set_last_rx_idx ex_rx_world 1) = false
  /\ fst (virtionet_receive false ex_vnet 9000 2048
            (set_last_rx_idx ex_rx_world 1)) = (0, ex_vnet).
Proof.
  assert (P : rx_pending false ex_vnet ex_rx_world = true)
    by (vm_compute; reflexivity).
  assert (N : rx_pending false ex_vnet (set_last_rx_idx ex_rx_world 1) = false)
    by (vm_compute; reflexivity).
  assert (Q : 0 < vq_size (vq (vdev ex_vnet) VQ_RX))
    by (vm_compute; reflexivity).
  destruct (virtionet_receive_consumes_one false ex_vnet 9000 2048 ex_rx_world Q)
    as (_ & Some1).
  destruct (virtionet_receive_consumes_one false ex_vnet 9000 2048
              (set_last_rx_idx ex_rx_world 1) Q) as (None1 & _).
  exact (conj Q (conj P (conj (proj1 (Some1 P)) (conj N (proj1 (None1 N)))))).
Defined.

Lemma virtionet_init_instance_witness :
  running (driver (set_vdev fresh_vnet ex_net_dev)) = 0
  /\ fst (fst (virtionet_init false 1526 (set_vdev fresh_vnet ex_net_dev)
                 ex_net_world)) = 0
  /\ running (driver (snd (fst
       (virtionet_init false 1526 (set_vdev fresh_vnet ex_net_dev)
          ex_net_world)))) = 1
  /\ net_hdr_size (snd (virtionet_init false 1526
                          (set_vdev fresh_vnet ex_net_dev) ex_net_world))
     = sizeof_virtio_net_hdr.
Proof.
  assert (R : running (driver (set_vdev fresh_vnet ex_net_dev)) = 0)
    by reflexivity.
  assert (I : fst (fst (virtionet_init false 1526
                          (set_vdev fresh_vnet ex_net_dev) ex_net_world)) = 0)
    by (vm_compute; reflexivity).
  destruct (virtionet_init_instance false 1526 (set_vdev fresh_vnet ex_net_dev)
              ex_net_world R I) as (A & _ & H & _).
  exact (conj R (conj I (conj A H))).
Defined.

(** Queues of 8 entries: four receive chains, [avail.idx] 4, and chain 3
    in descriptors 6 and 7. *)
Lemma virtionet_init_rx_queue_witness :
  running (driver (set_vdev fresh_vnet ex_net_dev)) = 0
  /\ fst (fst (virtionet_init false 1526 (set_vdev fresh_vnet ex_net_dev)
                 ex_net_world)) = 0
  /\ a_idx (avail (vq (vdev (snd (fst
       (virtionet_init false 1526 (set_vdev fresh_vnet ex_net_dev)
          ex_net_world)))) VQ_RX)) = 4
  /\ d_next (desc (vq (vdev (snd (fst
       (virtionet_init false 1526 (set_vdev fresh_vnet ex_net_dev)
          ex_net_world)))) VQ_RX) (2 * 3)) = 7.
Proof.
  assert (R : running (driver (set_vdev fresh_vnet ex_net_dev)) = 0)
    by reflexivity.
  assert (I : fst (fst (virtionet_init false 1526
                          (set_vdev fresh_vnet ex_net_dev) ex_net_world)) = 0)
    by (vm_compute; reflexivity).
  destruct (virtionet_init_rx_queue false 1526 (set_vdev fresh_vnet ex_net_dev)
              ex_net_world R I) as (_ & A & _ & _ & _ & C).
  assert (K : 0 <= 3 < u16 (queue_num_max (hw ex_net_world) VQ_RX) / 2)
    by (vm_compute; split; [discriminate | reflexivity]).
  destruct (C 3 K) as (D & _).
  exact (conj R (conj I (conj A (f_equal d_next D)))).
Defined.

Lemma virtionet_init_nothing_pending_witness :
  running (driver (set_vdev fresh_vnet ex_net_dev)) = 0
  /\ fst (fst (virtionet_init false 1526 (set_vdev fresh_vnet ex_net_dev)
                 ex_net_world)) = 0
  /\ fst (virtionet_receive_check false
            (snd (fst (virtionet_init false 1526
                         (set_vdev fresh_vnet ex_net_dev) ex_net_world)))
            (snd (virtionet_init false 1526
                    (set_vdev fresh_vnet ex_net_dev) ex_net_world))) = 0
  /\ emitted (virtionet_receive false
                (snd (fst (virtionet_init false 1526
                             (set_vdev fresh_vnet ex_net_dev) ex_net_world)))
                9000 2048)
       (snd (virtionet_init false 1526
               (set_vdev fresh_vnet ex_net_dev) ex_net_world))
     = [UsedIdxRead].
Proof.
  assert (R : running (driver (set_vdev fresh_vnet ex_net_dev)) = 0)
    by reflexivity.
  assert (I : fst (fst (virtionet_init false 1526
                          (set_vdev fresh_vnet ex_net_dev) ex_net_world)) = 0)
    by (vm_compute; reflexivity).
  destruct (virtionet_init_nothing_pending false 1526
              (set_vdev fresh_vnet ex_net_dev) ex_net_world 9000 2048 R I)
    as (_ & C & _ & E).
  exact (conj R (conj I (conj C E))).
Defined.

(** A net device without queues: the initialisation fails. *)
Lemma virtionet_init_failure_witness :
  running (driver (set_vdev fresh_vnet ex_net_dev)) = 0
  /\ fst (fst (virtionet_init false 1526 (set_vdev fresh_vnet ex_net_dev)
                 (ex_world (ex_device 0 ex_net_config 0)))) <> 0
  /\ fst (fst (virtionet_init false 1526 (set_vdev fresh_vnet ex_net_dev)
                 (ex_world (ex_device 0 ex_net_config 0)))) = -1
  /\ running (driver (snd (fst
       (virtionet_init false 1526 (set_vdev fresh_vnet ex_net_dev)
          (ex_world (ex_device 0 ex_net_config 0)))))) = 0.
Proof.
  assert (R : running (driver (set_vdev fresh_vnet ex_net_dev)) = 0)
    by reflexivity.
  assert (N : fst (fst (virtionet_init false 1526
                          (set_vdev fresh_vnet ex_net_dev)
                          (ex_world (ex_device 0 ex_net_config 0)))) <> 0)
    by (vm_compute; discriminate).
  destruct (virtionet_init_failure false 1526 (set_vdev fresh_vnet ex_net_dev)
              (ex_world (ex_device 0 ex_net_config 0)) R N) as (A & B & _).
  exact (conj R (conj N (conj A B))).
Defined.

Lemma virtionet_term_running_witness :
  running (driver ex_vnet) <> 0
  /\ running (driver (snd (fst (virtionet_term ex_vnet ex_rx_world)))) = 0
  /\ status_writes (emitted (virtionet_term ex_vnet) ex_rx_world)
     = [VIRTIO_STAT_FAILED; 0].
Proof.
  assert (R : running (driver ex_vnet) <> 0) by (vm_compute; discriminate).
  destruct (virtionet_term_running ex_vnet ex_rx_world R)
    as (_ & A & _ & _ & S & _).
  exact (conj R (conj A S)).
Defined.

(** Opening a net device without queues fails and leaves the heap as it
    was. *)
Lemma virtionet_open_failure_frees_witness :
  fst (virtionet_open false 1526 64 (Some ex_net_dev)
         (ex_world (ex_device 0 ex_net_config 0))) = None
  /\ heap_free (snd (virtionet_open false 1526 64 (Some ex_net_dev)
                       (ex_world (ex_device 0 ex_net_config 0))))
     = heap_free (ex_world (ex_device 0 ex_net_config 0)).
Proof.
  assert (N : fst (virtionet_open false 1526 64 (Some ex_net_dev)
                     (ex_world (ex_device 0 ex_net_config 0))) = None)
    by (vm_compute; reflexivity).
  exact (conj N (virtionet_open_failure_frees false 1526 64 (Some ex_net_dev)
                   (ex_world (ex_device 0 ex_net_config 0)) N)).
Defined.

(** Opening the legacy net device and closing the instance it returns. *)
Lemma virtionet_open_close_witness :
  exists v,
    fst (virtionet_open false 1526 64 (Some ex_net_dev) ex_net_world) = Some v
    /\ heap_free (snd (virtionet_close 64 (Some v)
                         (snd (virtionet_open false 1526 64 (Some ex_net_dev)
                                 ex_net_world))))
       = heap_free ex_net_world.
Proof.
  destruct (fst (virtionet_open false 1526 64 (Some ex_net_dev) ex_net_world))
    as [v |] eqn:E; [| vm_compute in E; discriminate E].
  exists v. split; [reflexivity |].
  exact (proj1 (virtionet_open_close false 1526 64 (Some ex_net_dev)
                  ex_net_world v E)).
Defined.
